(** * Expense tracker: the ledger core of [script.js]

    A shallow embedding of the browser script: the global [transactions]
    array, the [localStorage] entry it is persisted under, the DOM nodes the
    script writes to, and the functions [loadTransactions],
    [saveTransactions], [updateSummary], [showMessage],
    [addTransactionToDOM], [deleteTransaction], [renderTransactions],
    [handleFormSubmit], [handleListClick] and [init].

    JavaScript numbers are IEEE 754 binary64 values: they are the kernel's
    primitive [float], so [+], [-], [<], [>] and [===] round and compare as
    the script's do.  Strings are sequences of 8-bit code units. *)

From Stdlib Require Import ZArith Floats Ascii DecimalString Permutation.
From Stdlib Require DecimalPos DecimalZ.
From stdpp Require Import base option list strings gmap.

Local Open Scope Z_scope.
Local Set Warnings "-register-all".

(** ** Numbers *)

Module Num.

(** [x > y]; false as soon as one side is NaN. *)
Definition gtb (x y : float) : bool := PrimFloat.ltb y x.

(** [isNaN(x)]. *)
Definition isNaN (x : float) : bool := PrimFloat.is_nan x.

(** [x === 0]; true for both zeros. *)
Definition is_zero (x : float) : bool := PrimFloat.eqb x 0%float.

(** [Math.abs(x)]. *)
Definition abs (x : float) : float := PrimFloat.abs x.

(** The Number value of the integer [z]: the nearest binary64, exact for
    [|z| < 2^53]. *)
Definition of_Z (z : Z) : float :=
  SF2Prim (binary_normalize prec emax z 0 false).

(** The Number value of the non-negative rational [p / q], rounded to
    nearest, ties to even.  The quotient is taken with at least 64
    significant bits and a sticky last bit, then rounded once. *)
Definition of_ratio (p q : Z) : float :=
  if (p <=? 0) || (q <=? 0) then 0%float
  else
    let s := Z.max 0 (64 + Z.log2 q - Z.log2 p) in
    let '(m, r) := Z.div_eucl (Z.shiftl p s) q in
    let m' := 2 * m + (if r =? 0 then 0 else 1) in
    SF2Prim (binary_normalize prec emax m' (- s - 1) false).

End Num.

(** ** Strings *)

Module Str.

Local Open Scope char_scope.

(** White space and line terminators among the 8-bit code units: TAB, LF,
    VT, FF, CR, SP and NBSP. *)
Definition is_white_space (c : ascii) : bool :=
  let n := N_of_ascii c in
  ((9 <=? n) && (n <=? 13) || (n =? 32) || (n =? 160))%N.

Fixpoint trimStart (s : string) : string :=
  match s with
  | String c s' => if is_white_space c then trimStart s' else s
  | EmptyString => EmptyString
  end.

Definition trimEnd (s : string) : string :=
  String.rev (trimStart (String.rev s)).

(** [s.trim()]. *)
Definition trim (s : string) : string := trimEnd (trimStart s).

Definition is_digit (c : ascii) : bool :=
  let n := N_of_ascii c in ((48 <=? n) && (n <=? 57))%N.

Definition digit_value (c : ascii) : Z := Z.of_N (N_of_ascii c) - 48.

(** The longest run of decimal digits at the head of [s]: its value, its
    length and the rest of the string. *)
Fixpoint digits_from (acc : Z) (len : nat) (s : string) : Z * nat * string :=
  match s with
  | String c s' =>
      if is_digit c then digits_from (10 * acc + digit_value c) (S len) s'
      else (acc, len, s)
  | EmptyString => (acc, len, s)
  end.

Definition digits (s : string) : Z * nat * string := digits_from 0 0%nat s.

(** [s.startsWith(p)]. *)
Fixpoint starts_with (p s : string) : bool :=
  match p, s with
  | EmptyString, _ => true
  | String a p', String b s' => (a =? b)%char && starts_with p' s'
  | String _ _, EmptyString => false
  end.

(** [n.toString()] for an integral [n]. *)
Definition of_Z (z : Z) : string := NilZero.string_of_int (Z.to_int z).

End Str.

(** ** [parseFloat]

    ECMA-262, 19.2.4: leading white space is dropped, the longest prefix
    that is a [StrDecimalLiteral] is read, and its mathematical value is
    rounded to a Number; with no such prefix the result is NaN. *)

Module ParseFloat.

(** [ExponentPart]: [e] or [E], an optional sign, at least one digit.
    Anything else leaves the exponent at zero. *)
Definition exponent_part (s : string) : Z :=
  match s with
  | String c s' =>
      if (c =? "e")%char || (c =? "E")%char then
        let '(neg, s'') :=
          match s' with
          | String "-" t => (true, t)
          | String "+" t => (false, t)
          | _ => (false, s')
          end in
        let '(v, len, _) := Str.digits s'' in
        match len with
        | O => 0
        | S _ => if neg then - v else v
        end
      else 0
  | EmptyString => 0
  end.

(** The Number value of [mantissa * 10^exponent]. *)
Definition scale (mantissa exponent : Z) : float :=
  if 0 <=? exponent then Num.of_ratio (mantissa * 10 ^ exponent) 1
  else Num.of_ratio mantissa (10 ^ (- exponent)).

(** [StrUnsignedDecimalLiteral]; [None] when no prefix matches. *)
Definition unsigned_literal (s : string) : option float :=
  if Str.starts_with "Infinity" s then Some infinity
  else
    let '(int_value, int_len, rest) := Str.digits s in
    let '(frac_value, frac_len, rest') :=
      match rest with
      | String "." t => Str.digits t
      | _ => (0, O, rest)
      end in
    match int_len, frac_len with
    | O, O => None
    | _, _ =>
        let mantissa := int_value * 10 ^ Z.of_nat frac_len + frac_value in
        Some (scale mantissa (exponent_part rest' - Z.of_nat frac_len))
    end.

Definition parseFloat (s : string) : float :=
  let t := Str.trimStart s in
  let '(neg, u) :=
    match t with
    | String "-" u => (true, u)
    | String "+" u => (false, u)
    | _ => (false, t)
    end in
  match unsigned_literal u with
  | Some x => if neg then PrimFloat.opp x else x
  | None => nan
  end.

End ParseFloat.

Export ParseFloat.

(** ** JSON values and the text kept in [localStorage] *)

Inductive JSValue :=
| JNull
| JBool (b : bool)
| JNum (x : float)
| JStr (s : string)
| JArr (items : list JSValue)
| JObj (fields : list (string * JSValue)).

Module JSON.

(** What [JSON.stringify] writes for a number: NaN and the infinities
    become [null], and both zeros are written [0]. *)
Definition number (x : float) : JSValue :=
  if PrimFloat.is_finite x then JNum (if Num.is_zero x then 0%float else x)
  else JNull.

(** The value denoted by the text [JSON.stringify] produces for [v]. *)
Fixpoint written (v : JSValue) : JSValue :=
  match v with
  | JNum x => number x
  | JArr items => JArr (List.map written items)
  | JObj fields => JObj (List.map (fun '(k, w) => (k, written w)) fields)
  | JNull | JBool _ | JStr _ => v
  end.

(** A stored string, classified by how [JSON.parse] reads it: the text of
    a JSON value, kept as that value, or a string on which [JSON.parse]
    throws a [SyntaxError].  Everything about the concrete syntax (white
    space, escapes, the digits of a number) is the platform's and is not
    modelled; that reading back what was written loses nothing but the
    non-finite numbers is the guarantee of ECMA-262 taken as given. *)
Inductive Text :=
| text (v : JSValue)
| malformed (s : string).

Definition stringify (v : JSValue) : Text := text (written v).

(** [JSON.parse]; [None] stands for the [SyntaxError]. *)
Definition parse (t : Text) : option JSValue :=
  match t with
  | text v => Some v
  | malformed _ => None
  end.

(** Truthiness of the string: only the empty string is falsy, and no JSON
    text is empty. *)
Definition truthy (t : Text) : bool :=
  match t with
  | text _ => true
  | malformed s => negb (String.eqb s "")
  end.

End JSON.

(** ** Transactions *)

(** A numeric field of a record in the array.  [Null] is what a saved NaN
    or infinity comes back as; every arithmetic use converts it to [0]. *)
Inductive Numeric :=
| Number (x : float)
| Null.

Definition ToNumber (n : Numeric) : float :=
  match n with
  | Number x => x
  | Null => 0%float
  end.

(** [{id, description, amount, timestamp}]. *)
Record Transaction := {
  id : string;
  description : string;
  amount : Numeric;
  timestamp : Numeric
}.

Module Codec.

Definition numeric (n : Numeric) : JSValue :=
  match n with
  | Number x => JNum x
  | Null => JNull
  end.

Definition encode (t : Transaction) : JSValue :=
  JObj [("id", JStr (id t)); ("description", JStr (description t));
        ("amount", numeric (amount t)); ("timestamp", numeric (timestamp t))].

Definition to_numeric (v : JSValue) : option Numeric :=
  match v with
  | JNum x => Some (Number x)
  | JNull => Some Null
  | _ => None
  end.

(** An object is read as a transaction when it has exactly the four
    properties of the literal in [handleFormSubmit], in that order. *)
Definition decode (v : JSValue) : option Transaction :=
  match v with
  | JObj [(k1, JStr i); (k2, JStr d); (k3, a); (k4, ts)] =>
      if String.eqb k1 "id" && String.eqb k2 "description"
         && String.eqb k3 "amount" && String.eqb k4 "timestamp"
      then
        match to_numeric a, to_numeric ts with
        | Some a', Some ts' =>
            Some {| id := i; description := d; amount := a'; timestamp := ts' |}
        | _, _ => None
        end
      else None
  | _ => None
  end.

Fixpoint decode_all (items : list JSValue) : option (list Transaction) :=
  match items with
  | [] => Some []
  | v :: items' =>
      match decode v, decode_all items' with
      | Some t, Some ts => Some (t :: ts)
      | _, _ => None
      end
  end.

End Codec.

(** The global [transactions].  It starts as an array and is only ever
    replaced by an array the script built or by whatever [JSON.parse]
    returned: [Ledger] is an array of transaction records, [Foreign] any
    other parsed value. *)
Inductive Store :=
| Ledger (T : list Transaction)
| Foreign (v : JSValue).

Definition store_of (v : JSValue) : Store :=
  match v with
  | JArr items =>
      match Codec.decode_all items with
      | Some T => Ledger T
      | None => Foreign v
      end
  | _ => Foreign v
  end.

Definition value_of (s : Store) : JSValue :=
  match s with
  | Ledger T => JArr (List.map Codec.encode T)
  | Foreign v => v
  end.

(** ** The page *)

(** Text written to the page.  [Intl.NumberFormat] is opaque to the ledger
    logic: a formatted figure is kept as the number handed to
    [formatCurrency]. *)
Inductive Text :=
| Literal (s : string)
| formatCurrency (num : float).

(** The [<li>] built by [addTransactionToDOM]: the parts of its template
    that depend on the transaction, as they are spliced into it.  The
    script assigns the template to [innerHTML] without escaping, so these
    are the parameters of the markup; they are what the browser shows and
    what [dataset.id] returns only for text free of markup characters. *)
Record ListItem := {
  li_className : string;
  li_description : string;
  li_amountClass : string;
  li_amount : string * Text;
  li_data_id : string
}.

Inductive ListNode :=
| placeholder
| item (li : ListItem).

Record MessageBox := {
  textContent : string;
  className : string
}.

Record State := {
  transactions : Store;
  localStorage : gmap string JSON.Text;
  balanceDisplay : Text;
  incomeDisplay : Text;
  expenseDisplay : Text;
  transactionList : list ListNode;
  descriptionInput : string;
  amountInput : string;
  messageBox : MessageBox;
  timeouts : list Z;
  console : list string
}.

Definition set_transactions (T : Store) (st : State) : State :=
  {| transactions := T; localStorage := localStorage st;
     balanceDisplay := balanceDisplay st; incomeDisplay := incomeDisplay st;
     expenseDisplay := expenseDisplay st; transactionList := transactionList st;
     descriptionInput := descriptionInput st; amountInput := amountInput st;
     messageBox := messageBox st; timeouts := timeouts st; console := console st |}.

Definition set_localStorage (m : gmap string JSON.Text) (st : State) : State :=
  {| transactions := transactions st; localStorage := m;
     balanceDisplay := balanceDisplay st; incomeDisplay := incomeDisplay st;
     expenseDisplay := expenseDisplay st; transactionList := transactionList st;
     descriptionInput := descriptionInput st; amountInput := amountInput st;
     messageBox := messageBox st; timeouts := timeouts st; console := console st |}.

Definition set_displays (balance income expense : Text) (st : State) : State :=
  {| transactions := transactions st; localStorage := localStorage st;
     balanceDisplay := balance; incomeDisplay := income;
     expenseDisplay := expense; transactionList := transactionList st;
     descriptionInput := descriptionInput st; amountInput := amountInput st;
     messageBox := messageBox st; timeouts := timeouts st; console := console st |}.

Definition set_transactionList (l : list ListNode) (st : State) : State :=
  {| transactions := transactions st; localStorage := localStorage st;
     balanceDisplay := balanceDisplay st; incomeDisplay := incomeDisplay st;
     expenseDisplay := expenseDisplay st; transactionList := l;
     descriptionInput := descriptionInput st; amountInput := amountInput st;
     messageBox := messageBox st; timeouts := timeouts st; console := console st |}.

Definition set_inputs (d a : string) (st : State) : State :=
  {| transactions := transactions st; localStorage := localStorage st;
     balanceDisplay := balanceDisplay st; incomeDisplay := incomeDisplay st;
     expenseDisplay := expenseDisplay st; transactionList := transactionList st;
     descriptionInput := d; amountInput := a;
     messageBox := messageBox st; timeouts := timeouts st; console := console st |}.

Definition set_message (m : MessageBox) (delay : Z) (st : State) : State :=
  {| transactions := transactions st; localStorage := localStorage st;
     balanceDisplay := balanceDisplay st; incomeDisplay := incomeDisplay st;
     expenseDisplay := expenseDisplay st; transactionList := transactionList st;
     descriptionInput := descriptionInput st; amountInput := amountInput st;
     messageBox := m; timeouts := timeouts st ++ [delay]; console := console st |}.

Definition console_error (line : string) (st : State) : State :=
  {| transactions := transactions st; localStorage := localStorage st;
     balanceDisplay := balanceDisplay st; incomeDisplay := incomeDisplay st;
     expenseDisplay := expenseDisplay st; transactionList := transactionList st;
     descriptionInput := descriptionInput st; amountInput := amountInput st;
     messageBox := messageBox st; timeouts := timeouts st;
     console := console st ++ [line] |}.

(** The page as the script finds it: [transactions = []], empty inputs,
    nothing written yet, and [storage] as the browser kept it. *)
Definition page (storage : gmap string JSON.Text) : State :=
  {| transactions := Ledger []; localStorage := storage;
     balanceDisplay := Literal ""; incomeDisplay := Literal "";
     expenseDisplay := Literal ""; transactionList := [];
     descriptionInput := ""; amountInput := "";
     messageBox := {| textContent := ""; className := "hidden" |};
     timeouts := []; console := [] |}.

(** ** Completions

    A function of the script either returns, or throws with the state it
    had reached.  [Unmodelled] marks what lies outside the embedding: an
    array that holds something other than transaction records. *)

Inductive Error := TypeError.

Inductive Completion :=
| Normal (st : State)
| Throw (e : Error) (st : State)
| Unmodelled.

Definition and_then (c : Completion) (k : State -> Completion) : Completion :=
  match c with
  | Normal st => k st
  | Throw e st => Throw e st
  | Unmodelled => Unmodelled
  end.

Notation "c >>> k" := (and_then c k) (at level 61, left associativity).

(** ** [Array.prototype.sort]

    The sort is stable, and for a consistent comparator its result is the
    one stable order; it is written here as the stable insertion sort.  A
    comparator result that is NaN counts as [0]. *)

Module JSArray.
Section Sort.
Context {A : Type} (comparefn : A -> A -> float).

(** [x] goes behind the elements that must come before it. *)
Fixpoint insert (x : A) (l : list A) : list A :=
  match l with
  | [] => [x]
  | y :: l' =>
      if Num.gtb (comparefn x y) 0%float then y :: insert x l'
      else x :: l
  end.

Definition sort (l : list A) : list A := foldr insert [] l.

(** No element is directly followed by one the comparator puts before
    it. *)
Fixpoint ordered (l : list A) : Prop :=
  match l with
  | x :: (y :: _) as l' => Num.gtb (comparefn x y) 0%float = false /\ ordered l'
  | _ => True
  end.
End Sort.
End JSArray.

(** ** The script *)

Definition storageKey : string := "expenseTrackerTransactions".

(** [showMessage(message, type)].  The timer that hides the box again is
    recorded by its delay and never fired. *)
Definition showMessage (message type : string) (st : State) : State :=
  let baseClasses := "p-3 rounded-lg font-medium mb-4 transition duration-300 " in
  let classes :=
    if String.eqb type "error" then baseClasses +:+ "bg-red-100 text-red-800 shadow-md"
    else if String.eqb type "success" then baseClasses +:+ "bg-green-100 text-green-800 shadow-md"
    else baseClasses +:+ "bg-blue-100 text-blue-800 shadow-md" in
  set_message {| textContent := message; className := classes |} 3000 st.

Definition loadTransactions (st : State) : State :=
  match localStorage st !! storageKey with
  | Some savedTransactions =>
      if JSON.truthy savedTransactions then
        match JSON.parse savedTransactions with
        | Some v => set_transactions (store_of v) st
        | None =>
            showMessage "Error loading data. Data reset." "error"
              (set_transactions (Ledger [])
                 (console_error "Error parsing transactions from localStorage:" st))
        end
      else st
  | None => st
  end.

Definition saveTransactions (st : State) : State :=
  set_localStorage
    (<[storageKey := JSON.stringify (value_of (transactions st))]> (localStorage st))
    st.

(** The three totals of [updateSummary]. *)
Definition amounts (T : list Transaction) : list Numeric := List.map amount T.

Definition totalIncome (T : list Transaction) : float :=
  fold_left (fun acc item => PrimFloat.add acc (ToNumber item))
    (List.filter (fun item => Num.gtb (ToNumber item) 0%float) (amounts T))
    0%float.

Definition totalExpense (T : list Transaction) : float :=
  fold_left (fun acc item => PrimFloat.add acc (ToNumber item))
    (List.filter (fun item => PrimFloat.ltb (ToNumber item) 0%float) (amounts T))
    0%float.

Definition netBalance (T : list Transaction) : float :=
  PrimFloat.add (totalIncome T) (totalExpense T).

Definition updateSummary (st : State) : Completion :=
  match transactions st with
  | Ledger T =>
      Normal (set_displays (formatCurrency (netBalance T))
                (formatCurrency (totalIncome T))
                (formatCurrency (Num.abs (totalExpense T))) st)
  | Foreign (JArr _) => Unmodelled
  | Foreign _ => Throw TypeError st
  end.

(** The [listItem] element of [addTransactionToDOM]. *)
Definition listItem (transaction : Transaction) : ListItem :=
  let isIncome := Num.gtb (ToNumber (amount transaction)) 0%float in
  let sign := if isIncome then "+" else "-" in
  let absoluteAmount := Num.abs (ToNumber (amount transaction)) in
  {| li_className :=
       if isIncome then "border-green-500 bg-green-50" else "border-red-500 bg-red-50";
     li_description := description transaction;
     li_amountClass := if isIncome then "text-green-600" else "text-red-600";
     li_amount := (sign, formatCurrency absoluteAmount);
     li_data_id := id transaction |}.

(** [transactionList.prepend(listItem)]. *)
Definition addTransactionToDOM (transaction : Transaction) (st : State) : State :=
  set_transactionList (item (listItem transaction) :: transactionList st) st.

(** The comparator handed to [sort]. *)
Definition by_timestamp_desc (a b : Transaction) : float :=
  PrimFloat.sub (ToNumber (timestamp b)) (ToNumber (timestamp a)).

(** [transactions.length === 0] on a parsed value that is not an array:
    [None] when reading the property throws. *)
Definition length_is_zero (v : JSValue) : option bool :=
  match v with
  | JNull => None
  | JStr s => Some (String.eqb s "")
  | JObj fields =>
      match List.find (fun kv => String.eqb (fst kv) "length") fields with
      | Some (_, JNum x) => Some (Num.is_zero x)
      | _ => Some false
      end
  | _ => Some false
  end.

Definition renderTransactions (st : State) : Completion :=
  let st := set_transactionList [] st in
  match transactions st with
  | Ledger T =>
      if Nat.eqb (length T) 0 then Normal (set_transactionList [placeholder] st)
      else
        let sorted := JSArray.sort by_timestamp_desc T in
        let st := set_transactions (Ledger sorted) st in
        Normal (fold_left (fun st t => addTransactionToDOM t st) sorted st)
  | Foreign (JArr _) => Unmodelled
  | Foreign v =>
      match length_is_zero v with
      | Some true => Normal (set_transactionList [placeholder] st)
      | _ => Throw TypeError st
      end
  end.

Definition init (st : State) : Completion :=
  updateSummary (loadTransactions st) >>> renderTransactions.

Definition deleteTransaction (id' : string) (st : State) : Completion :=
  match transactions st with
  | Ledger T =>
      let kept := List.filter (fun t => negb (String.eqb (id t) id')) T in
      init (saveTransactions (set_transactions (Ledger kept) st))
      >>> fun st => Normal (showMessage "Transaction deleted successfully!" "success" st)
  | Foreign (JArr _) => Unmodelled
  | Foreign _ => Throw TypeError st
  end.

(** [transactions.push(newTransaction)]. *)
Definition push (newTransaction : Transaction) (st : State) : Completion :=
  match transactions st with
  | Ledger T => Normal (set_transactions (Ledger (T ++ [newTransaction])) st)
  | Foreign (JArr items) =>
      Normal (set_transactions (Foreign (JArr (items ++ [Codec.encode newTransaction]))) st)
  | Foreign _ => Throw TypeError st
  end.

(** The test of [handleFormSubmit] that rejects a submission. *)
Definition rejected (description : string) (amount : float) : bool :=
  String.eqb description "" || Num.isNaN amount || Num.is_zero amount.

(** [handleFormSubmit(e)].  The two readings of [Date.now()] are integral
    time values, in milliseconds. *)
Definition handleFormSubmit (now_id now_timestamp : Z) (st : State) : Completion :=
  let description' := Str.trim (descriptionInput st) in
  let amount' := parseFloat (amountInput st) in
  if rejected description' amount' then
    Normal (showMessage "Please enter a valid description and a non-zero amount." "error" st)
  else
    let newTransaction :=
      {| id := Str.of_Z now_id;
         description := description';
         amount := Number amount';
         timestamp := Number (Num.of_Z now_timestamp) |} in
    push newTransaction st
    >>> (fun st => init (saveTransactions st))
    >>> (fun st => Normal (showMessage "Transaction added successfully!" "success"
                             (set_inputs "" "" st))).

(** [handleListClick(e)]: [deleteButton] is the [data-id] of the delete
    button the click landed in, if any; [confirmed] is the answer to
    [window.confirm]. *)
Definition handleListClick (deleteButton : option string) (confirmed : bool)
    (st : State) : Completion :=
  match deleteButton with
  | Some idToDelete =>
      if confirmed then deleteTransaction idToDelete st else Normal st
  | None => Normal st
  end.

(** [window.onload]. *)
Definition onload (storage : gmap string JSON.Text) : Completion :=
  init (page storage).

(** ** Notions used to state the properties *)

(** A numeric field after [JSON.stringify] and [JSON.parse]. *)
Definition reloaded_numeric (n : Numeric) : Numeric :=
  match n with
  | Number x =>
      if PrimFloat.is_finite x then Number (if Num.is_zero x then 0%float else x)
      else Null
  | Null => Null
  end.

(** A transaction after it was saved and loaded again. *)
Definition reloaded (t : Transaction) : Transaction :=
  {| id := id t; description := description t;
     amount := reloaded_numeric (amount t);
     timestamp := reloaded_numeric (timestamp t) |}.

(** A numeric field that JSON text represents exactly: [null], or a finite
    number other than negative zero. *)
Definition lossless (n : Numeric) : Prop :=
  match n with
  | Number x => PrimFloat.is_finite x = true /\ x <> (-0)%float
  | Null => True
  end.

Definition storable (t : Transaction) : Prop :=
  lossless (amount t) /\ lossless (timestamp t).

(** The order [renderTransactions] leaves the array in. *)
Definition in_display_order (T : list Transaction) : Prop :=
  JSArray.ordered by_timestamp_desc T.

(** The ids spliced into the [data-id] attributes of the rows of the list,
    top to bottom. *)
Definition displayed_ids (st : State) : list string :=
  omap (fun n => match n with item li => Some (li_data_id li) | placeholder => None end)
    (transactionList st).

(** The amounts [updateSummary] adds up for the income and for the
    expense. *)
Definition incomes (T : list Transaction) : list Numeric :=
  List.filter (fun item => Num.gtb (ToNumber item) 0%float) (amounts T).

Definition expenses (T : list Transaction) : list Numeric :=
  List.filter (fun item => PrimFloat.ltb (ToNumber item) 0%float) (amounts T).

(** The rows of the list after [renderTransactions] went over the sorted
    array [T]. *)
Definition rows (T : list Transaction) : list ListNode :=
  match T with
  | [] => [placeholder]
  | _ :: _ => rev (List.map (fun t => item (listItem t)) T)
  end.

(** The state [updateSummary] and [renderTransactions] leave when the
    array holds the records [T]. *)
Definition refreshed (T : list Transaction) (st : State) : State :=
  let sorted := JSArray.sort by_timestamp_desc T in
  set_transactionList (rows sorted)
    (set_transactions (Ledger sorted)
       (set_displays (formatCurrency (netBalance T)) (formatCurrency (totalIncome T))
          (formatCurrency (Num.abs (totalExpense T))) st)).

(** The record [handleFormSubmit] builds from the inputs of [st]. *)
Definition newTransaction (now_id now_timestamp : Z) (st : State) : Transaction :=
  {| id := Str.of_Z now_id;
     description := Str.trim (descriptionInput st);
     amount := Number (parseFloat (amountInput st));
     timestamp := Number (Num.of_Z now_timestamp) |}.

(** ** Sample ledgers and pages *)

Module Sample.

Definition rent : Transaction :=
  {| id := "1"; description := "Rent";
     amount := Number (-40)%float; timestamp := Number 1%float |}.

Definition pay : Transaction :=
  {| id := "2"; description := "Pay";
     amount := Number 100%float; timestamp := Number 2%float |}.

Definition gift : Transaction :=
  {| id := "3"; description := "Gift";
     amount := Number 25%float; timestamp := Number 3%float |}.

(** A record whose amount is not finite, as [handleFormSubmit] builds it
    from the amount text [Infinity]. *)
Definition windfall : Transaction :=
  {| id := "5"; description := "Bonus";
     amount := Number infinity; timestamp := Number 5%float |}.

(** A page whose array holds [T]. *)
Definition holding (T : list Transaction) : State :=
  set_transactions (Ledger T) (page ∅).

(** A page with the form filled in. *)
Definition filled (description amount : string) (st : State) : State :=
  set_inputs description amount st.

(** Submitting the form at time [now], after whatever came before. *)
Definition submit (description amount : string) (now : Z) (c : Completion)
  : Completion :=
  c >>> fun st => handleFormSubmit now now (filled description amount st).

(** Three entries added at times 1, 2 and 3 on a fresh page. *)
Definition three_entries : Completion :=
  submit "Gift" "25" 3 (submit "Pay" "100" 2 (submit "Rent" "-40" 1 (onload ∅))).

Definition big : Transaction :=
  {| id := "1"; description := "Sale";
     amount := Number 10000000000000000%float; timestamp := Number 1%float |}.

Definition coin (i : string) (ts : float) : Transaction :=
  {| id := i; description := "Coin";
     amount := Number 1%float; timestamp := Number ts |}.

End Sample.

(** ** Further notions *)

(** The records [deleteTransaction] keeps. *)
Definition kept (id' : string) (T : list Transaction) : list Transaction :=
  List.filter (fun t => negb (String.eqb (id t) id')) T.

(** Rows listed oldest first: no row is stamped later than the row right
    below it. *)
Definition oldest_first (T : list Transaction) : Prop :=
  JSArray.ordered (fun upper lower => by_timestamp_desc lower upper) T.

(** A string of white space only, the empty string included. *)
Fixpoint blank (s : string) : bool :=
  match s with
  | EmptyString => true
  | String c s' => Str.is_white_space c && blank s'
  end.

(** The three figures of the summary, as written to the page. *)
Definition summary_shown (st : State) : Text * Text * Text :=
  (balanceDisplay st, incomeDisplay st, expenseDisplay st).

(** A parsed value that is an array. *)
Definition is_array (v : JSValue) : bool :=
  match v with
  | JArr _ => true
  | _ => false
  end.

(** ** Notions for the totals *)

(** The sum, from left to right onto [acc], of the amounts of [T] that
    satisfy [keep]: a total as the summary is described, one record at a
    time. *)
Fixpoint sum_where (keep : float -> bool) (acc : float) (T : list Transaction)
  : float :=
  match T with
  | [] => acc
  | t :: T' =>
      let x := ToNumber (amount t) in
      sum_where keep (if keep x then PrimFloat.add acc x else acc) T'
  end.

Definition above_zero (x : float) : bool := Num.gtb x 0%float.

Definition below_zero (x : float) : bool := PrimFloat.ltb x 0%float.

(** A ledger of four finite amounts whose totals overflow. *)
Module Overflow.

(** The largest finite number, [Number.MAX_VALUE]. *)
Definition huge : float := 0x1.fffffffffffffp+1023%float.

Definition entry (i : string) (x : float) : Transaction :=
  {| id := i; description := "Lot"; amount := Number x; timestamp := Number 1%float |}.

Definition ledger : list Transaction :=
  [entry "1" huge; entry "2" huge; entry "3" (- huge)%float; entry "4" (- huge)%float].

End Overflow.

(** Whole numbers in binary64: the representation of an integer of
    magnitude below [2^53]. *)
Module Exact.

(** [p * 2^n] for [n >= 0]. *)
Definition shl (p : positive) (n : Z) : positive :=
  match n with
  | Z.pos k => Pos.iter xO p k
  | _ => p
  end.

(** The number of binary digits of [p]. *)
Definition digits (p : positive) : Z := Z.pos (digits2_pos p).

(** The normalised mantissa and exponent of [p]. *)
Definition canonical (s : bool) (p : positive) : spec_float :=
  S754_finite s (shl p (53 - digits p)) (digits p - 53).

Definition of_whole (z : Z) : spec_float :=
  match z with
  | Z0 => S754_zero false
  | Z.pos p => canonical false p
  | Z.neg p => canonical true p
  end.

(** A shifted mantissa with no bit lost. *)
Definition exact (m : positive) : shr_record :=
  {| shr_m := Z.pos m; shr_r := false; shr_s := false |}.

End Exact.

Module Whole.

(** An amount that is a whole number. *)
Definition whole (z : Z) : Numeric := Number (Num.of_Z z).

(** The sum of the positive ones among [zs], and of the negative ones. *)
Definition credit (zs : list Z) : Z := fold_right (fun z s => Z.max z 0 + s) 0 zs.

Definition debit (zs : list Z) : Z := fold_right (fun z s => Z.min z 0 + s) 0 zs.

(** The step of the two [reduce] calls of [updateSummary]. *)
Definition add_amount (acc : float) (item : Numeric) : float :=
  PrimFloat.add acc (ToNumber item).

End Whole.

(** * Properties *)

(** ** Binary64 arithmetic: the sign of a rounded sum *)

Module FloatFacts.

Section Rounding.
Variables prec emax : Z.

(** The sign carried by a specification float; NaN carries none. *)
Definition has_sign (s : bool) (r : spec_float) : Prop :=
  match r with
  | S754_zero s' | S754_infinity s' | S754_finite s' _ _ => s' = s
  | S754_nan => False
  end.

Lemma shr_1_nonneg mrs : 0 <= shr_m mrs -> 0 <= shr_m (shr_1 mrs).
Proof.
  destruct mrs as [m r s]; simpl.
  destruct m as [|p|p]; simpl; try lia; destruct p; simpl; lia.
Qed.

Lemma iter_shr_1_nonneg n : forall mrs,
  0 <= shr_m mrs -> 0 <= shr_m (SpecFloat.iter_pos shr_1 n mrs).
Proof.
  induction n as [n IH|n IH|]; intros mrs H; simpl.
  - apply IH, IH, shr_1_nonneg, H.
  - apply IH, IH, H.
  - apply shr_1_nonneg, H.
Qed.

Lemma shr_fexp_nonneg m e l :
  0 <= m -> 0 <= shr_m (fst (shr_fexp prec emax m e l)).
Proof.
  intros H. unfold shr_fexp, shr.
  assert (H0 : 0 <= shr_m (shr_record_of_loc m l))
    by (destruct l as [|[]]; exact H).
  destruct (fexp prec emax (Zdigits2 m + e) - e); simpl; auto.
  apply iter_shr_1_nonneg, H0.
Qed.

Lemma round_nearest_even_nonneg m l : 0 <= m -> 0 <= round_nearest_even m l.
Proof.
  intros H. destruct l as [|[]]; simpl; try lia.
  destruct (Z.even m); lia.
Qed.

(** Rounding a non-negative mantissa never yields NaN and keeps the
    sign it was given. *)
Lemma binary_round_aux_sign s m e l :
  0 <= m -> has_sign s (binary_round_aux prec emax s m e l).
Proof.
  intros H. unfold binary_round_aux.
  pose proof (shr_fexp_nonneg m e l H) as H1.
  destruct (shr_fexp prec emax m e l) as [mrs' e']; simpl in H1.
  pose proof (shr_fexp_nonneg _ e' loc_Exact
                (round_nearest_even_nonneg _ (loc_of_shr_record mrs') H1)) as H2.
  destruct (shr_fexp prec emax _ e' loc_Exact) as [mrs'' e'']; simpl in H2.
  destruct (shr_m mrs'') as [|p|p]; simpl; try reflexivity; try lia.
  destruct (e'' <=? emax - prec); reflexivity.
Qed.

Lemma binary_round_sign s m e : has_sign s (binary_round prec emax s m e).
Proof.
  unfold binary_round. destruct (shl_align _ _ _) as [mz ez].
  apply binary_round_aux_sign. lia.
Qed.

Lemma binary_normalize_pos m e sz :
  0 < m -> has_sign false (binary_normalize prec emax m e sz).
Proof. destruct m; try lia. intros _. apply binary_round_sign. Qed.

Lemma binary_normalize_neg m e sz :
  m < 0 -> has_sign true (binary_normalize prec emax m e sz).
Proof. destruct m; try lia. intros _. apply binary_round_sign. Qed.

Lemma binary_normalize_zero e sz :
  binary_normalize prec emax 0 e sz = S754_zero sz.
Proof. reflexivity. Qed.

Lemma has_sign_false_leb r : has_sign false r -> SFleb (S754_zero false) r = true.
Proof. destruct r as [s|s| |s m e]; simpl; intros H; subst; auto; contradiction. Qed.

Lemma has_sign_true_leb r : has_sign true r -> SFleb r (S754_zero false) = true.
Proof. destruct r as [s|s| |s m e]; simpl; intros H; subst; auto; contradiction. Qed.

Lemma has_sign_true_not_pos r : has_sign true r -> SFltb (S754_zero false) r = false.
Proof. destruct r as [s|s| |s m e]; simpl; intros H; subst; auto; contradiction. Qed.

(** A non-negative number plus a positive one is non-negative. *)
Lemma SFadd_nonneg_pos a b :
  SFleb (S754_zero false) a = true -> SFltb (S754_zero false) b = true ->
  SFleb (S754_zero false) (SFadd prec emax a b) = true.
Proof.
  intros Ha Hb.
  destruct a as [sa|sa| |sa ma ea], b as [sb|sb| |sb mb eb];
    try destruct sa; try destruct sb;
    try discriminate Ha; try discriminate Hb; try reflexivity.
  apply has_sign_false_leb. simpl. apply binary_round_sign.
Qed.

(** A non-positive number plus a negative one is non-positive. *)
Lemma SFadd_nonpos_neg a b :
  SFleb a (S754_zero false) = true -> SFltb b (S754_zero false) = true ->
  SFleb (SFadd prec emax a b) (S754_zero false) = true.
Proof.
  intros Ha Hb.
  destruct a as [sa|sa| |sa ma ea], b as [sb|sb| |sb mb eb];
    try destruct sa; try destruct sb;
    try discriminate Ha; try discriminate Hb; try reflexivity.
  apply has_sign_true_leb. simpl. apply binary_round_sign.
Qed.

(** [x - y] and [y - x] are never both positive. *)
Lemma SFsub_antisym a b :
  SFltb (S754_zero false) (SFsub prec emax a b) = true ->
  SFltb (S754_zero false) (SFsub prec emax b a) = false.
Proof.
  intros H.
  destruct a as [sa|sa| |sa ma ea], b as [sb|sb| |sb mb eb].
  1-15: repeat (match goal with s : bool |- _ => destruct s end);
    (discriminate H || reflexivity).
  cbn [SFsub] in *. rewrite (Z.min_comm eb ea).
  set (x := cond_Zopp sa (Z.pos (fst (shl_align ma ea (Z.min ea eb))))) in *.
  set (y := cond_Zopp sb (Z.pos (fst (shl_align mb eb (Z.min ea eb))))) in *.
  destruct (Z.lt_trichotomy (x - y) 0) as [Hlt|[Heq|Hgt]].
  - rewrite (has_sign_true_not_pos _ (binary_normalize_neg _ _ _ Hlt)) in H.
    discriminate H.
  - rewrite Heq in H. discriminate H.
  - apply has_sign_true_not_pos, binary_normalize_neg. lia.
Qed.

End Rounding.

Lemma add_nonneg_pos x y :
  PrimFloat.leb 0 x = true -> PrimFloat.ltb 0 y = true ->
  PrimFloat.leb 0 (x + y) = true.
Proof. rewrite !leb_spec, ltb_spec, add_spec. apply SFadd_nonneg_pos. Qed.

Lemma add_nonpos_neg x y :
  PrimFloat.leb x 0 = true -> PrimFloat.ltb y 0 = true ->
  PrimFloat.leb (x + y) 0 = true.
Proof. rewrite !leb_spec, ltb_spec, add_spec. apply SFadd_nonpos_neg. Qed.

Lemma sub_antisym x y :
  PrimFloat.ltb 0 (x - y) = true -> PrimFloat.ltb 0 (y - x) = false.
Proof. rewrite !ltb_spec, !sub_spec. apply SFsub_antisym. Qed.

End FloatFacts.

(** ** The stable sort *)

Module SortFacts.
Import JSArray.

Section Sort.
Context {A : Type} (comparefn : A -> A -> float).

Lemma insert_perm x l : insert comparefn x l ≡ₚ x :: l.
Proof.
  induction l as [|y l IH]; simpl; [reflexivity|].
  destruct (Num.gtb (comparefn x y) 0); [|reflexivity].
  rewrite IH. apply perm_swap.
Qed.

Lemma sort_perm l : sort comparefn l ≡ₚ l.
Proof.
  induction l as [|x l IH]; simpl; [reflexivity|].
  rewrite insert_perm, IH. reflexivity.
Qed.

Lemma sort_length l : length (sort comparefn l) = length l.
Proof. apply Permutation_length, sort_perm. Qed.

(** An array already in order is left as it is. *)
Lemma sort_ordered_id l : ordered comparefn l -> sort comparefn l = l.
Proof.
  induction l as [|x l IH]; simpl; [reflexivity|].
  intros H. destruct l as [|y l]; [reflexivity|].
  destruct H as [Hxy Hl]. rewrite (IH Hl). simpl. rewrite Hxy. reflexivity.
Qed.

Hypothesis comparefn_antisym : forall x y,
  Num.gtb (comparefn x y) 0 = true -> Num.gtb (comparefn y x) 0 = false.

Lemma insert_ordered x l :
  ordered comparefn l -> ordered comparefn (insert comparefn x l).
Proof.
  induction l as [|y l IH]; simpl; [auto|].
  intros H. destruct (Num.gtb (comparefn x y) 0) eqn:Hxy.
  - assert (Hl : ordered comparefn l) by (destruct l; [exact I|apply H]).
    specialize (IH Hl). destruct l as [|z l]; simpl in *.
    + split; auto.
    + destruct H as [Hyz _].
      destruct (Num.gtb (comparefn x z) 0); simpl; split; auto.
  - simpl. split; auto.
Qed.

Lemma sort_ordered l : ordered comparefn (sort comparefn l).
Proof.
  induction l as [|x l IH]; simpl; [exact I|]. apply insert_ordered, IH.
Qed.

Lemma sort_idempotent l :
  sort comparefn (sort comparefn l) = sort comparefn l.
Proof. apply sort_ordered_id, sort_ordered. Qed.
End Sort.

Lemma by_timestamp_desc_antisym x y :
  Num.gtb (by_timestamp_desc x y) 0 = true ->
  Num.gtb (by_timestamp_desc y x) 0 = false.
Proof. apply FloatFacts.sub_antisym. Qed.

Lemma sort_in_display_order T :
  in_display_order (sort by_timestamp_desc T).
Proof. apply sort_ordered, by_timestamp_desc_antisym. Qed.

End SortFacts.

(** ** Saving and loading records *)

Module CodecFacts.
Import Codec.

Lemma decode_encode t : decode (encode t) = Some t.
Proof. destruct t as [i d [x|] [y|]]; reflexivity. Qed.

Lemma decode_all_encode T : decode_all (List.map encode T) = Some T.
Proof.
  induction T as [|t T IH]; cbn [List.map decode_all]; [reflexivity|].
  rewrite decode_encode, IH. reflexivity.
Qed.

Lemma store_of_value_of T : store_of (value_of (Ledger T)) = Ledger T.
Proof. cbn [value_of store_of]. rewrite decode_all_encode. reflexivity. Qed.

Lemma written_numeric n : JSON.written (numeric n) = numeric (reloaded_numeric n).
Proof.
  destruct n as [x|]; simpl; [|reflexivity].
  unfold JSON.number. destruct (is_finite x); reflexivity.
Qed.

Lemma written_encode t : JSON.written (encode t) = encode (reloaded t).
Proof.
  unfold encode. cbn [JSON.written List.map]. rewrite !written_numeric. reflexivity.
Qed.

Lemma written_ledger T :
  JSON.written (value_of (Ledger T)) = value_of (Ledger (List.map reloaded T)).
Proof.
  cbn [value_of JSON.written]. f_equal.
  induction T as [|t T IH]; cbn [List.map]; [reflexivity|].
  rewrite written_encode, IH. reflexivity.
Qed.

(** What [JSON.parse] returns for the text [JSON.stringify] wrote. *)
Lemma parse_stringify_ledger T :
  option_map store_of (JSON.parse (JSON.stringify (value_of (Ledger T))))
  = Some (Ledger (List.map reloaded T)).
Proof.
  unfold JSON.stringify, JSON.parse. rewrite written_ledger.
  cbn [option_map]. rewrite store_of_value_of. reflexivity.
Qed.

Lemma is_zero_cases x :
  Num.is_zero x = true -> x = 0%float \/ x = (-0)%float.
Proof.
  unfold Num.is_zero. rewrite FloatAxioms.eqb_spec.
  change (Prim2SF 0) with (S754_zero false). intros H.
  rewrite <- (SF2Prim_Prim2SF x).
  destruct (Prim2SF x) as [[]|[]| |[] m e]; try discriminate H;
    [right|left]; reflexivity.
Qed.

Lemma reloaded_numeric_lossless n : lossless n -> reloaded_numeric n = n.
Proof.
  destruct n as [x|]; simpl; [|reflexivity].
  intros [Hfin Hnz]. rewrite Hfin.
  destruct (Num.is_zero x) eqn:Hz; [|reflexivity].
  destruct (is_zero_cases x Hz) as [->| ->]; [reflexivity|contradiction].
Qed.

Lemma reloaded_storable t : storable t -> reloaded t = t.
Proof.
  destruct t as [i d a ts]. intros [Ha Hts]. unfold reloaded. simpl in *.
  rewrite (reloaded_numeric_lossless a Ha), (reloaded_numeric_lossless ts Hts).
  reflexivity.
Qed.

Lemma reloaded_all_storable T : Forall storable T -> List.map reloaded T = T.
Proof.
  induction 1 as [|t T Ht _ IH]; simpl; [reflexivity|].
  rewrite (reloaded_storable t Ht), IH. reflexivity.
Qed.

(** Whatever was loaded from storage is stored exactly. *)
Lemma lossless_reloaded_numeric n : lossless (reloaded_numeric n).
Proof.
  destruct n as [x|]; simpl; [|exact I].
  destruct (is_finite x) eqn:Hfin; simpl; [|exact I].
  destruct (Num.is_zero x) eqn:Hz.
  - split; [reflexivity|]. intros H. discriminate H.
  - split; [exact Hfin|]. intros ->. discriminate Hz.
Qed.

Lemma storable_reloaded t : storable (reloaded t).
Proof. split; apply lossless_reloaded_numeric. Qed.

End CodecFacts.

(** ** The script on an array of records *)

Module ScriptFacts.
Import JSArray.

Lemma forEach_addTransactionToDOM l : forall st,
  fold_left (fun st t => addTransactionToDOM t st) l st
  = set_transactionList
      (rev (List.map (fun t => item (listItem t)) l) ++ transactionList st) st.
Proof.
  induction l as [|t l IH]; intros st.
  - destruct st; reflexivity.
  - cbn [fold_left List.map rev]. rewrite IH, <- app_assoc. reflexivity.
Qed.

Lemma renderTransactions_ledger st T :
  transactions st = Ledger T ->
  renderTransactions st
  = Normal (set_transactionList (rows (sort by_timestamp_desc T))
              (set_transactions (Ledger (sort by_timestamp_desc T)) st)).
Proof.
  intros H. destruct st; simpl in H; subst.
  unfold renderTransactions; cbn [transactions set_transactionList].
  destruct T as [|t T]; [reflexivity|].
  cbn [length Nat.eqb]. rewrite forEach_addTransactionToDOM.
  pose proof (SortFacts.sort_length by_timestamp_desc (t :: T)) as Hlen.
  destruct (sort by_timestamp_desc (t :: T)) as [|t' T']; [discriminate Hlen|].
  cbn [rows transactionList set_transactions]. rewrite app_nil_r. reflexivity.
Qed.

Lemma refresh_ledger st T :
  transactions st = Ledger T ->
  updateSummary st >>> renderTransactions = Normal (refreshed T st).
Proof.
  intros H. unfold updateSummary. rewrite H. cbn [and_then].
  rewrite (renderTransactions_ledger _ T); [reflexivity|exact H].
Qed.

(** Loading right after saving reads back what was written. *)
Lemma loadTransactions_saved st T :
  transactions st = Ledger T ->
  loadTransactions (saveTransactions st)
  = set_transactions (Ledger (List.map reloaded T)) (saveTransactions st).
Proof.
  intros H. unfold loadTransactions, saveTransactions.
  cbn [localStorage set_localStorage]. rewrite lookup_insert_eq, H.
  pose proof (CodecFacts.parse_stringify_ledger T) as Hp.
  cbn [JSON.truthy JSON.stringify] in *.
  destruct (JSON.parse _) as [v|]; [|discriminate Hp].
  cbn [option_map] in Hp. injection Hp as ->. reflexivity.
Qed.

Lemma init_saved st T :
  transactions st = Ledger T ->
  init (saveTransactions st)
  = Normal (refreshed (List.map reloaded T) (saveTransactions st)).
Proof.
  intros H. unfold init. rewrite (loadTransactions_saved st T H).
  rewrite (refresh_ledger _ (List.map reloaded T)); reflexivity.
Qed.

Lemma deleteTransaction_ledger id' st T :
  transactions st = Ledger T ->
  let kept := List.filter (fun t => negb (String.eqb (id t) id')) T in
  deleteTransaction id' st
  = Normal (showMessage "Transaction deleted successfully!" "success"
              (refreshed (List.map reloaded kept)
                 (saveTransactions (set_transactions (Ledger kept) st)))).
Proof.
  intros H kept. unfold deleteTransaction. rewrite H. fold kept.
  rewrite (init_saved _ kept); reflexivity.
Qed.

Lemma handleFormSubmit_rejected now_id now_timestamp st :
  rejected (Str.trim (descriptionInput st)) (parseFloat (amountInput st)) = true ->
  handleFormSubmit now_id now_timestamp st
  = Normal (showMessage "Please enter a valid description and a non-zero amount."
              "error" st).
Proof. intros H. unfold handleFormSubmit. rewrite H. reflexivity. Qed.

Lemma handleFormSubmit_accepted now_id now_timestamp st T :
  transactions st = Ledger T ->
  rejected (Str.trim (descriptionInput st)) (parseFloat (amountInput st)) = false ->
  let T' := T ++ [newTransaction now_id now_timestamp st] in
  handleFormSubmit now_id now_timestamp st
  = Normal (showMessage "Transaction added successfully!" "success"
              (set_inputs "" ""
                 (refreshed (List.map reloaded T')
                    (saveTransactions (set_transactions (Ledger T') st))))).
Proof.
  intros H Hr T'. unfold handleFormSubmit. rewrite Hr.
  unfold push. rewrite H. cbn [and_then].
  rewrite (init_saved _ T'); reflexivity.
Qed.

End ScriptFacts.

(** ** Display order *)

Lemma displayed_ids_rows st (T : list Transaction) :
  T <> [] ->
  displayed_ids (set_transactionList (rows T) st) = rev (List.map id T).
Proof.
  intros HT. destruct T as [|t T]; [contradiction|].
  unfold displayed_ids. cbn [transactionList set_transactionList rows].
  generalize (t :: T). clear. intros l.
  induction l as [|x l IH]; [reflexivity|].
  cbn [List.map rev]. rewrite omap_app, IH. reflexivity.
Qed.

(** The rows of the list are the sorted array read backwards:
    [renderTransactions] sorts newest first and then prepends each row in
    turn, so the newest row ends at the bottom. *)
Lemma renderTransactions_reverses_sort st (T : list Transaction) :
  transactions st = Ledger T -> T <> [] ->
  exists st', renderTransactions st = Normal st'
    /\ displayed_ids st' = rev (List.map id (JSArray.sort by_timestamp_desc T)).
Proof.
  intros H HT. rewrite (ScriptFacts.renderTransactions_ledger st T H).
  eexists; split; [reflexivity|]. apply displayed_ids_rows.
  intros Hs. apply HT. apply length_zero_iff_nil.
  rewrite <- (SortFacts.sort_length by_timestamp_desc T), Hs. reflexivity.
Qed.

(** C1 (the code departs from it): with timestamps [1 < 2] the claim asks
    for the entry stamped [2] above the entry stamped [1].  Whatever order
    the array holds the two records in, [renderTransactions] lists the entry
    stamped [1] first and the entry stamped [2] below it. *)
Theorem renderTransactions_lists_oldest_first :
  (exists st', renderTransactions (Sample.holding [Sample.rent; Sample.pay]) = Normal st'
     /\ displayed_ids st' = ["1"; "2"])
  /\ (exists st', renderTransactions (Sample.holding [Sample.pay; Sample.rent]) = Normal st'
     /\ displayed_ids st' = ["1"; "2"]).
Proof. split; eexists; split; reflexivity. Qed.

(** ** The summary *)

Section Totals.
Local Open Scope float_scope.

Let plus (acc : float) (item : Numeric) : float := acc + ToNumber item.

Lemma sum_positive_nonneg l : forall acc,
  Forall (fun item => Num.gtb (ToNumber item) 0 = true) l ->
  (0 <=? acc) = true -> (0 <=? fold_left plus l acc) = true.
Proof.
  induction l as [|item l IH]; intros acc Hl Hacc; [exact Hacc|].
  inversion Hl as [|? ? Hitem Hl']; subst. cbn [fold_left].
  apply IH; [exact Hl'|]. apply FloatFacts.add_nonneg_pos; assumption.
Qed.

Lemma sum_negative_nonpos l : forall acc,
  Forall (fun item => (ToNumber item <? 0) = true) l ->
  (acc <=? 0) = true -> (fold_left plus l acc <=? 0) = true.
Proof.
  induction l as [|item l IH]; intros acc Hl Hacc; [exact Hacc|].
  inversion Hl as [|? ? Hitem Hl']; subst. cbn [fold_left].
  apply IH; [exact Hl'|]. apply FloatFacts.add_nonpos_neg; assumption.
Qed.

Lemma Forall_filter_true {A} (f : A -> bool) l :
  Forall (fun x => f x = true) (List.filter f l).
Proof.
  induction l as [|x l IH]; simpl; [constructor|].
  destruct (f x) eqn:Hx; [constructor|]; assumption.
Qed.

Lemma totalIncome_nonneg T : (0 <=? totalIncome T) = true.
Proof.
  apply sum_positive_nonneg; [|reflexivity].
  apply (Forall_filter_true (fun item => Num.gtb (ToNumber item) 0)).
Qed.

Lemma totalExpense_nonpos T : (totalExpense T <=? 0) = true.
Proof.
  apply sum_negative_nonpos; [|reflexivity].
  apply (Forall_filter_true (fun item => ToNumber item <? 0)).
Qed.

End Totals.

(** ** Submitting the form *)

Lemma rejected_false_iff (d : string) (a : float) :
  rejected d a = false <-> d <> "" /\ Num.isNaN a = false /\ Num.is_zero a = false.
Proof.
  unfold rejected. rewrite !orb_false_iff, String.eqb_neq. tauto.
Qed.

Lemma rejected_true_iff (d : string) (a : float) :
  rejected d a = true <-> d = "" \/ Num.isNaN a = true \/ Num.is_zero a = true.
Proof.
  unfold rejected. rewrite !orb_true_iff, String.eqb_eq. tauto.
Qed.

Lemma is_finite_not_NaN (x : float) :
  PrimFloat.is_finite x = true -> Num.isNaN x = false.
Proof.
  unfold PrimFloat.is_finite, Num.isNaN. destruct (is_nan x); [discriminate|reflexivity].
Qed.

(** C6: a submission whose description is empty once trimmed, whose amount
    text does not parse to a number, or whose amount is zero returns with
    the array and the storage exactly as they were; only the error message
    is shown. *)
Theorem handleFormSubmit_invalid_unchanged (now_id now_timestamp : Z) (st : State) :
  Str.trim (descriptionInput st) = ""
  \/ Num.isNaN (parseFloat (amountInput st)) = true
  \/ Num.is_zero (parseFloat (amountInput st)) = true ->
  exists st', handleFormSubmit now_id now_timestamp st = Normal st'
    /\ transactions st' = transactions st
    /\ localStorage st' = localStorage st
    /\ textContent (messageBox st')
       = "Please enter a valid description and a non-zero amount.".
Proof.
  intros H. apply rejected_true_iff in H.
  rewrite (ScriptFacts.handleFormSubmit_rejected _ _ _ H).
  eexists; repeat split.
Qed.

Lemma handleFormSubmit_invalid_unchanged_witness :
  exists st',
    handleFormSubmit 7 7 (Sample.filled "   " "5" (Sample.holding [Sample.rent]))
    = Normal st'
    /\ transactions st' = Ledger [Sample.rent]
    /\ localStorage st' = ∅
    /\ textContent (messageBox st')
       = "Please enter a valid description and a non-zero amount.".
Proof.
  apply (handleFormSubmit_invalid_unchanged 7 7
           (Sample.filled "   " "5" (Sample.holding [Sample.rent]))).
  left. reflexivity.
Defined.

(** C2: when the description is not empty once trimmed and the amount text
    parses to a finite number other than zero, [handleFormSubmit] returns
    with an array that is one entry longer: the entries it held before, as
    they read back from storage, and one more whose description is the
    trimmed text and whose amount is the parsed number.  Entries that were
    stored exactly read back unchanged. *)
Theorem handleFormSubmit_adds_one_entry (now_id now_timestamp : Z) (st : State)
    (T : list Transaction) :
  transactions st = Ledger T ->
  Str.trim (descriptionInput st) <> "" ->
  PrimFloat.is_finite (parseFloat (amountInput st)) = true ->
  Num.is_zero (parseFloat (amountInput st)) = false ->
  exists st' L entry,
    handleFormSubmit now_id now_timestamp st = Normal st'
    /\ transactions st' = Ledger L
    /\ length L = S (length T)
    /\ L ≡ₚ List.map reloaded T ++ [entry]
    /\ (Forall storable T -> L ≡ₚ T ++ [entry])
    /\ description entry = Str.trim (descriptionInput st)
    /\ amount entry = Number (parseFloat (amountInput st)).
Proof.
  intros HT Hd Hfin Hnz.
  assert (Hr : rejected (Str.trim (descriptionInput st)) (parseFloat (amountInput st))
               = false).
  { apply rejected_false_iff. auto using is_finite_not_NaN. }
  rewrite (ScriptFacts.handleFormSubmit_accepted _ _ _ T HT Hr).
  set (new := newTransaction now_id now_timestamp st).
  assert (HL : JSArray.sort by_timestamp_desc (List.map reloaded (T ++ [new]))
               ≡ₚ List.map reloaded T ++ [reloaded new]).
  { rewrite SortFacts.sort_perm, List.map_app. reflexivity. }
  exists (showMessage "Transaction added successfully!" "success"
            (set_inputs "" ""
               (refreshed (List.map reloaded (T ++ [new]))
                  (saveTransactions (set_transactions (Ledger (T ++ [new])) st))))),
    (JSArray.sort by_timestamp_desc (List.map reloaded (T ++ [new]))),
    (reloaded new).
  split; [reflexivity|]. split; [reflexivity|]. split.
  { rewrite SortFacts.sort_length, List.length_map, List.length_app. simpl. lia. }
  split; [exact HL|]. split.
  { intros Hs. rewrite HL, (CodecFacts.reloaded_all_storable T Hs). reflexivity. }
  split; [reflexivity|].
  cbn [reloaded new newTransaction amount reloaded_numeric].
  rewrite Hfin, Hnz. reflexivity.
Qed.

Lemma handleFormSubmit_adds_one_entry_witness :
  exists st' L entry,
    handleFormSubmit 9 9 (Sample.filled "  Salary " "50000" (Sample.holding [Sample.rent]))
    = Normal st'
    /\ transactions st' = Ledger L
    /\ length L = 2%nat
    /\ L ≡ₚ List.map reloaded [Sample.rent] ++ [entry]
    /\ (Forall storable [Sample.rent] -> L ≡ₚ [Sample.rent] ++ [entry])
    /\ description entry = "Salary"
    /\ amount entry = Number 50000%float.
Proof.
  apply (handleFormSubmit_adds_one_entry 9 9
           (Sample.filled "  Salary " "50000" (Sample.holding [Sample.rent]))
           [Sample.rent]).
  - reflexivity.
  - vm_compute. discriminate.
  - reflexivity.
  - reflexivity.
Defined.

(** The amount text [Infinity] parses to a number that is not finite, and
    the submission is accepted all the same: a record is added and stored,
    its amount written as [null]. *)
Lemma handleFormSubmit_accepts_Infinity :
  PrimFloat.is_finite (parseFloat "Infinity") = false
  /\ exists st',
       handleFormSubmit 5 5 (Sample.filled "Bonus" "Infinity" (page ∅)) = Normal st'
       /\ localStorage st' !! storageKey
          = Some (JSON.stringify (value_of (Ledger [Sample.windfall])))
       /\ transactions st'
          = Ledger [{| id := "5"; description := "Bonus";
                       amount := Null; timestamp := Number 5%float |}]
       /\ textContent (messageBox st') = "Transaction added successfully!".
Proof.
  split; [reflexivity|]. eexists.
  split; [vm_compute; reflexivity|]. repeat split; vm_compute; reflexivity.
Qed.

(** C5, amended: [handleFormSubmit] creates a transaction exactly when the
    description is not empty once trimmed, the amount text parses to
    something other than NaN (an infinity included), and the amount is not
    zero; in every other case it shows the validation message and changes
    neither the array nor the storage. *)
Theorem handleFormSubmit_accepts_iff (now_id now_timestamp : Z) (st : State)
    (T : list Transaction) :
  transactions st = Ledger T ->
  let d := Str.trim (descriptionInput st) in
  let a := parseFloat (amountInput st) in
  let valid := d <> "" /\ Num.isNaN a = false /\ Num.is_zero a = false in
  let created :=
    exists st', handleFormSubmit now_id now_timestamp st = Normal st'
      /\ transactions st'
         = Ledger (JSArray.sort by_timestamp_desc
                     (List.map reloaded (T ++ [newTransaction now_id now_timestamp st])))
      /\ textContent (messageBox st') = "Transaction added successfully!" in
  let refused :=
    handleFormSubmit now_id now_timestamp st
    = Normal (showMessage "Please enter a valid description and a non-zero amount."
                "error" st) in
  (created <-> valid) /\ (refused <-> ~ valid).
Proof.
  intros HT d a valid created refused.
  destruct (rejected d a) eqn:Hr.
  - pose proof (ScriptFacts.handleFormSubmit_rejected now_id now_timestamp st Hr) as Hs.
    assert (Hnv : ~ valid).
    { intros Hv. apply rejected_false_iff in Hv. congruence. }
    split; split; intros H; try contradiction; try assumption.
    destruct H as (st' & Heq & _ & Hmsg).
    unfold d, a in Heq. rewrite Hs in Heq. injection Heq as <-. discriminate Hmsg.
  - pose proof (ScriptFacts.handleFormSubmit_accepted now_id now_timestamp st T HT Hr)
      as Hs.
    assert (Hv : valid) by (apply rejected_false_iff; exact Hr).
    split; split; intros H; try assumption; try contradiction.
    + eexists. split; [exact Hs|]. split; reflexivity.
    + unfold refused in H. rewrite Hs in H.
      apply (f_equal (fun c => match c with
                               | Normal s => textContent (messageBox s)
                               | _ => ""
                               end)) in H.
      discriminate H.
Qed.

Lemma handleFormSubmit_accepts_iff_witness :
  let st := Sample.filled "Bonus" "Infinity" (page ∅) in
  let valid :=
    Str.trim "Bonus" <> "" /\ Num.isNaN (parseFloat "Infinity") = false
    /\ Num.is_zero (parseFloat "Infinity") = false in
  ((exists st', handleFormSubmit 5 5 st = Normal st'
      /\ transactions st'
         = Ledger (JSArray.sort by_timestamp_desc
                     (List.map reloaded ([] ++ [newTransaction 5 5 st])))
      /\ textContent (messageBox st') = "Transaction added successfully!")
   <-> valid)
  /\ (handleFormSubmit 5 5 st
      = Normal (showMessage "Please enter a valid description and a non-zero amount."
                  "error" st)
      <-> ~ valid).
Proof.
  exact (handleFormSubmit_accepts_iff 5 5 (Sample.filled "Bonus" "Infinity" (page ∅)) []
           eq_refl).
Defined.

(** ** What is persisted *)

(** After three submissions at times 1, 2 and 3 the array that was written
    to storage holds the second entry, then the first, then the third. *)
Lemma persisted_order_is_not_insertion_order :
  exists st', Sample.three_entries = Normal st'
    /\ localStorage st' !! storageKey
       = Some (JSON.text (value_of (Ledger [Sample.pay; Sample.rent; Sample.gift])))
    /\ localStorage st' !! storageKey
       <> Some (JSON.text (value_of (Ledger [Sample.rent; Sample.pay; Sample.gift]))).
Proof.
  eexists. split; [vm_compute; reflexivity|].
  split; [vm_compute; reflexivity|]. vm_compute. discriminate.
Qed.

(** C9, amended: [push] puts the new transaction at the end of the array,
    and the array written to storage is the array as it stood before,
    followed by the new transaction.  The array as it stood is in the order
    the last [renderTransactions] sorted it into, newest first, so what is
    persisted is insertion order only until a render has reordered it. *)
Theorem handleFormSubmit_persists_appended (now_id now_timestamp : Z) (st : State)
    (T : list Transaction) :
  transactions st = Ledger T ->
  rejected (Str.trim (descriptionInput st)) (parseFloat (amountInput st)) = false ->
  let new := newTransaction now_id now_timestamp st in
  push new st = Normal (set_transactions (Ledger (T ++ [new])) st)
  /\ exists st', handleFormSubmit now_id now_timestamp st = Normal st'
       /\ localStorage st' !! storageKey
          = Some (JSON.stringify (value_of (Ledger (T ++ [new]))))
       /\ exists L, transactions st' = Ledger L /\ in_display_order L.
Proof.
  intros HT Hr new. split.
  - unfold push. rewrite HT. reflexivity.
  - rewrite (ScriptFacts.handleFormSubmit_accepted _ _ _ T HT Hr). fold new.
    eexists. split; [reflexivity|]. split.
    + cbn [localStorage showMessage set_message set_inputs refreshed
           set_transactionList set_transactions set_displays saveTransactions
           set_localStorage transactions value_of].
      apply lookup_insert_eq.
    + eexists. split; [reflexivity|]. apply SortFacts.sort_in_display_order.
Qed.

Lemma handleFormSubmit_persists_appended_witness :
  let st := Sample.filled "Gift" "25" (Sample.holding [Sample.pay; Sample.rent]) in
  let new := newTransaction 3 3 st in
  push new st
  = Normal (set_transactions (Ledger ([Sample.pay; Sample.rent] ++ [new])) st)
  /\ exists st', handleFormSubmit 3 3 st = Normal st'
       /\ localStorage st' !! storageKey
          = Some (JSON.stringify (value_of (Ledger ([Sample.pay; Sample.rent] ++ [new]))))
       /\ exists L, transactions st' = Ledger L /\ in_display_order L.
Proof.
  exact (handleFormSubmit_persists_appended 3 3
           (Sample.filled "Gift" "25" (Sample.holding [Sample.pay; Sample.rent]))
           [Sample.pay; Sample.rent] eq_refl eq_refl).
Defined.

(** ** Loading *)

(** A stored text that is valid JSON but not an array, here [{}], is
    taken as it is: no error is shown, the array variable holds the object,
    and [init] stops with a [TypeError] in [updateSummary]. *)
Lemma onload_throws_on_stored_object :
  let storage : gmap string JSON.Text := {[ storageKey := JSON.text (JObj []) ]} in
  transactions (loadTransactions (page storage)) = Foreign (JObj [])
  /\ messageBox (loadTransactions (page storage)) = messageBox (page storage)
  /\ exists st, onload storage = Throw TypeError st.
Proof.
  cbv zeta. split; [vm_compute; reflexivity|].
  split; [vm_compute; reflexivity|]. eexists. vm_compute. reflexivity.
Qed.

(** C4, amended: when the stored text is present (not the empty string)
    and [JSON.parse] throws on it, [loadTransactions] leaves an empty array
    and shows the error message, and [init] then returns with the
    placeholder row.  A stored text that parses is taken as the new value of
    the array variable whatever its structure, with no message. *)
Theorem loadTransactions_stored_text (st : State) (saved : JSON.Text) :
  localStorage st !! storageKey = Some saved ->
  JSON.truthy saved = true ->
  match JSON.parse saved with
  | None =>
      transactions (loadTransactions st) = Ledger []
      /\ textContent (messageBox (loadTransactions st))
         = "Error loading data. Data reset."
      /\ exists st', init st = Normal st'
           /\ transactions st' = Ledger []
           /\ transactionList st' = [placeholder]
           /\ textContent (messageBox st') = "Error loading data. Data reset."
  | Some v => loadTransactions st = set_transactions (store_of v) st
  end.
Proof.
  intros Hs Ht.
  assert (Hl : loadTransactions st
               = match JSON.parse saved with
                 | Some v => set_transactions (store_of v) st
                 | None =>
                     showMessage "Error loading data. Data reset." "error"
                       (set_transactions (Ledger [])
                          (console_error "Error parsing transactions from localStorage:" st))
                 end).
  { unfold loadTransactions. rewrite Hs, Ht. reflexivity. }
  destruct (JSON.parse saved) as [v|]; [exact Hl|].
  split; [rewrite Hl; reflexivity|]. split; [rewrite Hl; reflexivity|].
  unfold init. rewrite Hl.
  rewrite (ScriptFacts.refresh_ledger _ []); [|reflexivity].
  eexists. repeat split.
Qed.

Lemma loadTransactions_stored_text_witness :
  let st := page {[ storageKey := JSON.malformed "[{oops" ]} in
  transactions (loadTransactions st) = Ledger []
  /\ textContent (messageBox (loadTransactions st)) = "Error loading data. Data reset."
  /\ exists st', init st = Normal st'
       /\ transactions st' = Ledger []
       /\ transactionList st' = [placeholder]
       /\ textContent (messageBox st') = "Error loading data. Data reset.".
Proof.
  apply (loadTransactions_stored_text
           (page {[ storageKey := JSON.malformed "[{oops" ]})
           (JSON.malformed "[{oops")).
  - vm_compute. reflexivity.
  - reflexivity.
Defined.

(** ** Saving, then loading *)

(** A record whose amount is an infinity comes back from storage with the
    amount [null]. *)
Lemma load_save_loses_infinite_amount :
  let st := Sample.holding [Sample.windfall] in
  transactions (loadTransactions (saveTransactions st))
  = Ledger [{| id := "5"; description := "Bonus";
               amount := Null; timestamp := Number 5%float |}]
  /\ transactions (loadTransactions (saveTransactions st)) <> transactions st.
Proof.
  cbv zeta. split; [vm_compute; reflexivity|]. vm_compute. discriminate.
Qed.

(** C7, amended: when every amount and timestamp of the array is [null] or
    a finite number other than negative zero, loading right after saving
    gives back the same records in the same order, with the same ids,
    descriptions, amounts and timestamps. *)
Theorem load_save_round_trip (st : State) (T : list Transaction) :
  transactions st = Ledger T ->
  Forall storable T ->
  transactions (loadTransactions (saveTransactions st)) = Ledger T.
Proof.
  intros HT Hs. rewrite (ScriptFacts.loadTransactions_saved st T HT).
  cbn [transactions set_transactions].
  rewrite (CodecFacts.reloaded_all_storable T Hs). reflexivity.
Qed.

Lemma storable_finite (t : Transaction) :
  match amount t, timestamp t with
  | Number a, Number ts =>
      PrimFloat.is_finite a && negb (Num.is_zero a)
      && PrimFloat.is_finite ts && negb (Num.is_zero ts) = true
  | _, _ => False
  end -> storable t.
Proof.
  destruct t as [i d [a|] [ts|]]; simpl; try contradiction.
  rewrite !andb_true_iff, !negb_true_iff. intros [[[Ha Hza] Hts] Hzts].
  split; (split; [assumption|]); intros ->; discriminate.
Qed.

Lemma load_save_round_trip_witness :
  transactions (loadTransactions
                  (saveTransactions (Sample.holding [Sample.pay; Sample.rent])))
  = Ledger [Sample.pay; Sample.rent].
Proof.
  apply (load_save_round_trip (Sample.holding [Sample.pay; Sample.rent])
           [Sample.pay; Sample.rent]).
  - reflexivity.
  - constructor; [apply storable_finite; reflexivity|].
    constructor; [apply storable_finite; reflexivity|]. constructor.
Defined.

(** ** Deleting *)

Lemma filter_absent_id (id' : string) (T : list Transaction) :
  ~ In id' (List.map id T) ->
  List.filter (fun t => negb (String.eqb (id t) id')) T = T.
Proof.
  induction T as [|t T IH]; simpl; [reflexivity|].
  intros H. destruct (String.eqb_spec (id t) id') as [Heq|Hne]; simpl.
  - exfalso. apply H. left. exact Heq.
  - rewrite IH; [reflexivity|]. intros Hin. apply H. right. exact Hin.
Qed.

(** Every save followed by [init] leaves the array stored exactly and in
    display order: this is the state in which the next click or submission
    finds it. *)
Lemma init_saved_settles (st : State) (T : list Transaction) :
  transactions st = Ledger T ->
  exists st' L, init (saveTransactions st) = Normal st'
    /\ transactions st' = Ledger L
    /\ Forall storable L /\ in_display_order L.
Proof.
  intros HT. rewrite (ScriptFacts.init_saved st T HT).
  eexists _, _. split; [reflexivity|]. split; [reflexivity|]. split.
  - apply (Permutation_Forall
             (Permutation_sym (SortFacts.sort_perm by_timestamp_desc _))).
    clear. induction T as [|t T IH]; constructor;
      [apply CodecFacts.storable_reloaded|exact IH].
  - apply SortFacts.sort_in_display_order.
Qed.

(** ** The summary and the order of the array *)

(** The same three amounts in two orders: [1e16 + 1 + 1] is [1e16] in
    binary64, while [1 + 1 + 1e16] is [1e16 + 2]. *)
Lemma totalIncome_depends_on_order :
  let T := [Sample.big; Sample.coin "2" 2; Sample.coin "3" 3] in
  let T' := [Sample.coin "2" 2; Sample.coin "3" 3; Sample.big] in
  T ≡ₚ T'
  /\ PrimFloat.eqb (totalIncome T) (totalIncome T') = false
  /\ PrimFloat.eqb (netBalance T) (netBalance T') = false
  /\ totalIncome T = 10000000000000000%float
  /\ totalIncome T' = 10000000000000002%float.
Proof.
  cbv zeta. split.
  - apply (Permutation_app_comm [Sample.big] [Sample.coin "2" 2; Sample.coin "3" 3]).
  - repeat split; vm_compute; reflexivity.
Qed.

(** * Further properties of the script *)

(** ** Deleting a transaction *)

Lemma In_kept (id' : string) (T : list Transaction) (t : Transaction) :
  In t (kept id' T) <-> In t T /\ id t <> id'.
Proof.
  unfold kept. rewrite filter_In, negb_true_iff, String.eqb_neq. tauto.
Qed.

Lemma id_reloaded (T : list Transaction) :
  List.map id (List.map reloaded T) = List.map id T.
Proof. rewrite List.map_map. reflexivity. Qed.

(** [deleteTransaction(id)] removes every record that carries the id and
    no other: the array written to storage is the array without them, and
    the array reloaded by [init] holds exactly the remaining records, none
    of which carries the id.  Two records with the same id (two submissions
    within one millisecond) are removed together. *)
Theorem deleteTransaction_removes_every_match (id' : string) (st : State)
    (T : list Transaction) :
  transactions st = Ledger T ->
  exists st' L,
    deleteTransaction id' st = Normal st'
    /\ localStorage st' !! storageKey
       = Some (JSON.stringify (value_of (Ledger (kept id' T))))
    /\ transactions st' = Ledger L
    /\ L ≡ₚ List.map reloaded (kept id' T)
    /\ ~ In id' (List.map id L)
    /\ (forall t, In t T -> id t <> id' -> In (reloaded t) L).
Proof.
  intros HT. rewrite (ScriptFacts.deleteTransaction_ledger id' st T HT).
  cbv zeta. fold (kept id' T).
  set (L := JSArray.sort by_timestamp_desc (List.map reloaded (kept id' T))).
  assert (HL : L ≡ₚ List.map reloaded (kept id' T)) by apply SortFacts.sort_perm.
  exists (showMessage "Transaction deleted successfully!" "success"
            (refreshed (List.map reloaded (kept id' T))
               (saveTransactions (set_transactions (Ledger (kept id' T)) st)))), L.
  split; [reflexivity|]. split.
  { cbn [localStorage showMessage set_message refreshed set_transactionList
         set_transactions set_displays saveTransactions set_localStorage
         transactions value_of].
    apply lookup_insert_eq. }
  split; [reflexivity|]. split; [exact HL|]. split.
  - intros Hin.
    apply (Permutation_in _ (Permutation_map id HL)) in Hin.
    rewrite id_reloaded in Hin. apply in_map_iff in Hin.
    destruct Hin as (t & Hid & Ht). apply In_kept in Ht. tauto.
  - intros t Ht Hne. apply (Permutation_in _ (Permutation_sym HL)).
    apply in_map. apply In_kept. tauto.
Qed.

Lemma deleteTransaction_removes_every_match_witness :
  let twin := {| id := "2"; description := "Twin";
                 amount := Number 7%float; timestamp := Number 2%float |} in
  let T := [Sample.pay; Sample.rent; twin] in
  exists st' L,
    deleteTransaction "2" (Sample.holding T) = Normal st'
    /\ localStorage st' !! storageKey
       = Some (JSON.stringify (value_of (Ledger (kept "2" T))))
    /\ transactions st' = Ledger L
    /\ L ≡ₚ List.map reloaded (kept "2" T)
    /\ ~ In "2" (List.map id L)
    /\ (forall t, In t T -> id t <> "2" -> In (reloaded t) L).
Proof.
  cbv zeta. apply deleteTransaction_removes_every_match. reflexivity.
Defined.

Lemma length_kept_unique (id' : string) (T : list Transaction) :
  List.NoDup (List.map id T) -> In id' (List.map id T) ->
  S (length (kept id' T)) = length T.
Proof.
  induction T as [|t T IH]; simpl; [contradiction|].
  intros Hnd [Heq|Hin]; apply List.NoDup_cons_iff in Hnd as [Hnotin Hnd].
  - subst id'. rewrite String.eqb_refl. simpl. f_equal.
    unfold kept in *. rewrite filter_absent_id; [reflexivity|exact Hnotin].
  - destruct (String.eqb_spec (id t) id') as [Heq|Hne]; simpl.
    + exfalso. apply Hnotin. rewrite Heq. exact Hin.
    + f_equal. apply IH; assumption.
Qed.

(** When the ids of the array are pairwise different and one of them is
    deleted, the array is exactly one record shorter afterwards. *)
Theorem deleteTransaction_removes_one (id' : string) (st : State)
    (T : list Transaction) :
  transactions st = Ledger T ->
  List.NoDup (List.map id T) ->
  In id' (List.map id T) ->
  exists st' L,
    deleteTransaction id' st = Normal st'
    /\ transactions st' = Ledger L
    /\ S (length L) = length T
    /\ List.NoDup (List.map id L).
Proof.
  intros HT Hnd Hin. rewrite (ScriptFacts.deleteTransaction_ledger id' st T HT).
  cbv zeta. fold (kept id' T).
  eexists _, _. split; [reflexivity|]. split; [reflexivity|]. split.
  - rewrite SortFacts.sort_length, List.length_map.
    apply length_kept_unique; assumption.
  - apply (Permutation.Permutation_NoDup
             (Permutation_map id
                (Permutation_sym (SortFacts.sort_perm by_timestamp_desc _)))).
    rewrite id_reloaded. unfold kept.
    clear HT Hin. induction T as [|t T IH]; simpl; [constructor|].
    apply List.NoDup_cons_iff in Hnd as [Hnotin Hnd].
    destruct (negb (String.eqb (id t) id')); simpl; [|apply IH; exact Hnd].
    constructor; [|apply IH; exact Hnd].
    intros Hin. apply Hnotin. apply in_map_iff in Hin.
    destruct Hin as (u & Hu & Hin). apply filter_In in Hin.
    apply in_map_iff. exists u. tauto.
Qed.

Lemma deleteTransaction_removes_one_witness :
  exists st' L,
    deleteTransaction "1" (Sample.holding [Sample.pay; Sample.rent]) = Normal st'
    /\ transactions st' = Ledger L
    /\ S (length L) = 2%nat
    /\ List.NoDup (List.map id L).
Proof.
  apply (deleteTransaction_removes_one "1" (Sample.holding [Sample.pay; Sample.rent])
           [Sample.pay; Sample.rent]).
  - reflexivity.
  - vm_compute. constructor; [intros [H|[]]; discriminate H|].
    constructor; [intros []|constructor].
  - vm_compute. right. left. reflexivity.
Defined.

(** ** Rendering the list *)

Lemma ordered_snoc {A : Type} (comparefn : A -> A -> float) (l : list A) (y x : A) :
  JSArray.ordered comparefn (l ++ [y]) ->
  Num.gtb (comparefn y x) 0 = false ->
  JSArray.ordered comparefn (l ++ [y; x]).
Proof.
  induction l as [|a l IH]; simpl; [tauto|].
  intros H Hyx. destruct l as [|b l]; simpl in *; [tauto|].
  destruct H as [Hab H]. split; [exact Hab|]. apply IH; assumption.
Qed.

(** Reading an ordered array backwards gives an array ordered the other
    way round. *)
Lemma ordered_rev {A : Type} (comparefn : A -> A -> float) (l : list A) :
  JSArray.ordered comparefn l ->
  JSArray.ordered (fun x y => comparefn y x) (rev l).
Proof.
  induction l as [|x l IH]; [intros _; exact I|].
  intros H. destruct l as [|y l]; [exact I|].
  destruct H as [Hxy H]. specialize (IH H).
  change (rev (x :: y :: l)) with ((rev l ++ [y]) ++ [x]).
  rewrite <- app_assoc.
  apply (ordered_snoc (fun x y => comparefn y x)); assumption.
Qed.

(** For every array that is not empty, the list shows one row per record
    and shows them oldest first: no row is stamped later than the row right
    below it.  The array itself is left newest first, the rows read
    backwards. *)
Theorem renderTransactions_oldest_first (st : State) (T : list Transaction) :
  transactions st = Ledger T ->
  T <> [] ->
  exists st' shown,
    renderTransactions st = Normal st'
    /\ transactionList st' = List.map (fun t => item (listItem t)) shown
    /\ shown ≡ₚ T
    /\ oldest_first shown
    /\ transactions st' = Ledger (rev shown).
Proof.
  intros HT Hne. rewrite (ScriptFacts.renderTransactions_ledger st T HT).
  set (sorted := JSArray.sort by_timestamp_desc T).
  assert (Hs : sorted <> []).
  { intros Hs. apply Hne, length_zero_iff_nil.
    rewrite <- (SortFacts.sort_length by_timestamp_desc T). fold sorted.
    rewrite Hs. reflexivity. }
  exists (set_transactionList (rows sorted) (set_transactions (Ledger sorted) st)),
    (rev sorted).
  split; [reflexivity|]. split.
  { cbn [transactionList set_transactionList]. destruct sorted; [contradiction|].
    unfold rows. rewrite List.map_rev. reflexivity. }
  split; [rewrite <- Permutation_rev; apply SortFacts.sort_perm|]. split.
  - apply (ordered_rev by_timestamp_desc), SortFacts.sort_in_display_order.
  - rewrite rev_involutive. reflexivity.
Qed.

Lemma renderTransactions_oldest_first_witness :
  exists st' shown,
    renderTransactions (Sample.holding [Sample.rent; Sample.gift; Sample.pay])
    = Normal st'
    /\ transactionList st' = List.map (fun t => item (listItem t)) shown
    /\ shown ≡ₚ [Sample.rent; Sample.gift; Sample.pay]
    /\ oldest_first shown
    /\ transactions st' = Ledger (rev shown).
Proof.
  apply (renderTransactions_oldest_first
           (Sample.holding [Sample.rent; Sample.gift; Sample.pay])
           [Sample.rent; Sample.gift; Sample.pay]).
  - reflexivity.
  - discriminate.
Defined.

(** ** Binary64 arithmetic: zero, sign and magnitude *)

Module FloatOrder.

Lemma SFcompare_finite_refl (s : bool) (m : positive) (e : Z) :
  SFcompare (S754_finite s m e) (S754_finite s m e) = Some Eq.
Proof.
  simpl. rewrite Z.compare_refl, Pos.compare_cont_refl. destruct s; reflexivity.
Qed.

(** The shape of a number above zero: positive and finite, or [+Infinity]. *)
Lemma positive_cases (x : float) :
  PrimFloat.ltb 0 x = true ->
  Prim2SF x = S754_infinity false \/ exists m e, Prim2SF x = S754_finite false m e.
Proof.
  rewrite ltb_spec. change (Prim2SF 0) with (S754_zero false).
  destruct (Prim2SF x) as [s|[]| |[] m e]; try discriminate; eauto.
Qed.

Lemma positive_not_zero (x : float) :
  PrimFloat.ltb 0 x = true -> Num.is_zero x = false.
Proof.
  intros H. unfold Num.is_zero. rewrite FloatAxioms.eqb_spec.
  change (Prim2SF 0) with (S754_zero false).
  destruct (positive_cases x H) as [->|(m & e & ->)]; reflexivity.
Qed.

Lemma positive_not_negative (x : float) :
  PrimFloat.ltb 0 x = true -> PrimFloat.ltb x 0 = false.
Proof.
  intros H. rewrite ltb_spec. change (Prim2SF 0) with (S754_zero false).
  destruct (positive_cases x H) as [->|(m & e & ->)]; reflexivity.
Qed.

(** [0 + x] and [x + 0] are [x] itself for a number above zero. *)
Lemma zero_add_positive (x : float) :
  PrimFloat.ltb 0 x = true -> (0 + x)%float = x.
Proof.
  intros H. apply Prim2SF_inj. rewrite add_spec.
  change (Prim2SF 0) with (S754_zero false).
  destruct (positive_cases x H) as [->|(m & e & ->)]; reflexivity.
Qed.

Lemma positive_add_zero (x : float) :
  PrimFloat.ltb 0 x = true -> (x + 0)%float = x.
Proof.
  intros H. apply Prim2SF_inj. rewrite add_spec.
  change (Prim2SF 0) with (S754_zero false).
  destruct (positive_cases x H) as [->|(m & e & ->)]; reflexivity.
Qed.

(** The magnitude of a number that is at most zero is at least zero, and
    equals the number negated. *)
Lemma abs_of_nonpositive (x : float) :
  PrimFloat.leb x 0 = true ->
  PrimFloat.leb 0 (Num.abs x) = true
  /\ PrimFloat.eqb (Num.abs x) (PrimFloat.opp x) = true.
Proof.
  unfold Num.abs.
  rewrite !leb_spec, FloatAxioms.eqb_spec, abs_spec, opp_spec.
  change (Prim2SF 0) with (S754_zero false).
  destruct (Prim2SF x) as [[]|[]| |[] m e]; try discriminate; intros _;
    split; try reflexivity.
  unfold SFeqb. cbn [SFabs SFopp negb]. rewrite SFcompare_finite_refl. reflexivity.
Qed.

End FloatOrder.

(** ** The figures of the summary *)

(** The expense figure handed to the formatter is never negative and never
    NaN: it is the expense total negated.  With the income figure this
    makes two of the three figures of the summary non-negative. *)
Theorem updateSummary_shows_magnitudes (st : State) (T : list Transaction) :
  exists st' income expense,
    updateSummary (set_transactions (Ledger T) st) = Normal st'
    /\ incomeDisplay st' = formatCurrency income
    /\ expenseDisplay st' = formatCurrency expense
    /\ PrimFloat.leb 0 income = true
    /\ PrimFloat.leb 0 expense = true
    /\ PrimFloat.eqb expense (PrimFloat.opp (totalExpense T)) = true.
Proof.
  eexists _, _, _. split; [reflexivity|]. split; [reflexivity|].
  split; [reflexivity|]. split; [apply totalIncome_nonneg|].
  apply FloatOrder.abs_of_nonpositive, totalExpense_nonpos.
Qed.

Lemma amounts_app (T1 T2 : list Transaction) :
  amounts (T1 ++ T2) = amounts T1 ++ amounts T2.
Proof. apply List.map_app. Qed.

(** A record whose amount is neither above nor below zero ([null], zero or
    NaN) does not enter the totals: the income, the expense and the balance
    are what they are without it, wherever it stands in the array. *)
Theorem totals_ignore_unsigned_amount (T1 T2 : list Transaction) (t : Transaction) :
  Num.gtb (ToNumber (amount t)) 0 = false ->
  PrimFloat.ltb (ToNumber (amount t)) 0 = false ->
  totalIncome (T1 ++ t :: T2) = totalIncome (T1 ++ T2)
  /\ totalExpense (T1 ++ t :: T2) = totalExpense (T1 ++ T2)
  /\ netBalance (T1 ++ t :: T2) = netBalance (T1 ++ T2).
Proof.
  intros Hpos Hneg.
  assert (Hi : totalIncome (T1 ++ t :: T2) = totalIncome (T1 ++ T2)).
  { unfold totalIncome. rewrite !amounts_app, !List.filter_app.
    cbn [amounts List.map List.filter]. rewrite Hpos. reflexivity. }
  assert (He : totalExpense (T1 ++ t :: T2) = totalExpense (T1 ++ T2)).
  { unfold totalExpense. rewrite !amounts_app, !List.filter_app.
    cbn [amounts List.map List.filter]. rewrite Hneg. reflexivity. }
  unfold netBalance. rewrite Hi, He. auto.
Qed.

Lemma totals_ignore_unsigned_amount_witness :
  let lost := {| id := "5"; description := "Bonus";
                 amount := Null; timestamp := Number 5%float |} in
  totalIncome ([Sample.pay] ++ lost :: [Sample.rent]) = totalIncome ([Sample.pay] ++ [Sample.rent])
  /\ totalExpense ([Sample.pay] ++ lost :: [Sample.rent])
     = totalExpense ([Sample.pay] ++ [Sample.rent])
  /\ netBalance ([Sample.pay] ++ lost :: [Sample.rent])
     = netBalance ([Sample.pay] ++ [Sample.rent]).
Proof.
  cbv zeta. apply totals_ignore_unsigned_amount; reflexivity.
Defined.

(** The first entry of an empty ledger, when it is an income: after the
    submission the balance and the income both show the amount as parsed,
    the expense shows zero, and the list has the one row of the entry. *)
Theorem first_income_shows_amount (now_id now_timestamp : Z) (st : State) :
  transactions st = Ledger [] ->
  Str.trim (descriptionInput st) <> "" ->
  PrimFloat.is_finite (parseFloat (amountInput st)) = true ->
  PrimFloat.ltb 0 (parseFloat (amountInput st)) = true ->
  exists st' entry,
    handleFormSubmit now_id now_timestamp st = Normal st'
    /\ summary_shown st'
       = (formatCurrency (parseFloat (amountInput st)),
          formatCurrency (parseFloat (amountInput st)),
          formatCurrency 0)
    /\ transactions st' = Ledger [entry]
    /\ amount entry = Number (parseFloat (amountInput st))
    /\ transactionList st' = [item (listItem entry)]
    /\ fst (li_amount (listItem entry)) = "+".
Proof.
  intros HT Hd Hfin Hpos.
  pose proof (FloatOrder.positive_not_zero _ Hpos) as Hnz.
  assert (Hr : rejected (Str.trim (descriptionInput st)) (parseFloat (amountInput st))
               = false).
  { apply rejected_false_iff. auto using is_finite_not_NaN. }
  rewrite (ScriptFacts.handleFormSubmit_accepted _ _ _ [] HT Hr).
  set (new := newTransaction now_id now_timestamp st).
  assert (Ha : amount (reloaded new) = Number (parseFloat (amountInput st))).
  { cbn [reloaded new newTransaction amount reloaded_numeric].
    rewrite Hfin, Hnz. reflexivity. }
  exists (showMessage "Transaction added successfully!" "success"
            (set_inputs "" ""
               (refreshed (List.map reloaded ([] ++ [new]))
                  (saveTransactions (set_transactions (Ledger ([] ++ [new])) st))))),
    (reloaded new).
  split; [reflexivity|]. split.
  { unfold summary_shown, showMessage, set_message, set_inputs, refreshed.
    cbn [balanceDisplay incomeDisplay expenseDisplay set_transactionList
         set_transactions set_displays app List.map].
    unfold netBalance, totalIncome, totalExpense.
    cbn [amounts List.map List.filter]. rewrite Ha. cbn [ToNumber].
    unfold Num.gtb. rewrite Hpos, (FloatOrder.positive_not_negative _ Hpos).
    cbn [fold_left ToNumber]. rewrite (FloatOrder.zero_add_positive _ Hpos).
    rewrite (FloatOrder.positive_add_zero _ Hpos). reflexivity. }
  split; [reflexivity|]. split; [exact Ha|]. split; [reflexivity|].
  unfold listItem. rewrite Ha. cbn [ToNumber li_amount fst].
  unfold Num.gtb. rewrite Hpos. reflexivity.
Qed.

Lemma first_income_shows_amount_witness :
  exists st' entry,
    handleFormSubmit 9 9 (Sample.filled "Salary" "50000" (page ∅)) = Normal st'
    /\ summary_shown st'
       = (formatCurrency 50000, formatCurrency 50000, formatCurrency 0)
    /\ transactions st' = Ledger [entry]
    /\ amount entry = Number 50000%float
    /\ transactionList st' = [item (listItem entry)]
    /\ fst (li_amount (listItem entry)) = "+".
Proof.
  apply (first_income_shows_amount 9 9 (Sample.filled "Salary" "50000" (page ∅))).
  - reflexivity.
  - vm_compute. discriminate.
  - reflexivity.
  - reflexivity.
Defined.

(** ** The form after a submission *)

(** An accepted submission empties both fields of the form; a rejected one
    leaves them as they were typed. *)
Theorem handleFormSubmit_form_fields (now_id now_timestamp : Z) (st : State)
    (T : list Transaction) :
  transactions st = Ledger T ->
  exists st',
    handleFormSubmit now_id now_timestamp st = Normal st'
    /\ if rejected (Str.trim (descriptionInput st)) (parseFloat (amountInput st))
       then descriptionInput st' = descriptionInput st
            /\ amountInput st' = amountInput st
       else descriptionInput st' = "" /\ amountInput st' = "".
Proof.
  intros HT.
  destruct (rejected (Str.trim (descriptionInput st)) (parseFloat (amountInput st)))
    eqn:Hr.
  - rewrite (ScriptFacts.handleFormSubmit_rejected _ _ _ Hr).
    eexists. split; [reflexivity|]. split; reflexivity.
  - rewrite (ScriptFacts.handleFormSubmit_accepted _ _ _ T HT Hr).
    eexists. split; [reflexivity|]. split; reflexivity.
Qed.

Lemma handleFormSubmit_form_fields_witness :
  exists st',
    handleFormSubmit 4 4 (Sample.filled "Lunch" "-12.5" (Sample.holding [Sample.pay]))
    = Normal st'
    /\ descriptionInput st' = "" /\ amountInput st' = "".
Proof.
  exact (handleFormSubmit_form_fields 4 4
           (Sample.filled "Lunch" "-12.5" (Sample.holding [Sample.pay]))
           [Sample.pay] eq_refl).
Defined.

Lemma trimStart_blank (s : string) : blank s = true -> Str.trimStart s = "".
Proof.
  induction s as [|c s IH]; simpl; [reflexivity|].
  destruct (Str.is_white_space c); simpl; [exact IH|discriminate].
Qed.

Lemma trim_blank (s : string) : blank s = true -> Str.trim s = "".
Proof. intros H. unfold Str.trim. rewrite (trimStart_blank s H). reflexivity. Qed.

Lemma parseFloat_blank (s : string) : blank s = true -> parseFloat s = nan.
Proof. intros H. unfold parseFloat. rewrite (trimStart_blank s H). reflexivity. Qed.

(** A description of white space only, or an amount text of white space
    only (the empty field included), is rejected whatever the other field
    holds: the validation message is shown and nothing else changes. *)
Theorem handleFormSubmit_rejects_blank (now_id now_timestamp : Z) (st : State) :
  blank (descriptionInput st) = true \/ blank (amountInput st) = true ->
  handleFormSubmit now_id now_timestamp st
  = Normal (showMessage "Please enter a valid description and a non-zero amount."
              "error" st).
Proof.
  intros H. apply ScriptFacts.handleFormSubmit_rejected, rejected_true_iff.
  destruct H as [H|H].
  - left. apply trim_blank, H.
  - right. left. rewrite (parseFloat_blank _ H). reflexivity.
Qed.

Lemma handleFormSubmit_rejects_blank_witness :
  handleFormSubmit 4 4 (Sample.filled "Lunch" "  " (Sample.holding [Sample.pay]))
  = Normal (showMessage "Please enter a valid description and a non-zero amount."
              "error" (Sample.filled "Lunch" "  " (Sample.holding [Sample.pay]))).
Proof.
  apply (handleFormSubmit_rejects_blank 4 4
           (Sample.filled "Lunch" "  " (Sample.holding [Sample.pay]))).
  right. reflexivity.
Defined.

(** ** Ids *)

Lemma of_Z_inj (a b : Z) : Str.of_Z a = Str.of_Z b -> a = b.
Proof.
  unfold Str.of_Z. intros H.
  assert (Hn : forall z, NilZero.int_of_string (NilZero.string_of_int (Z.to_int z))
                         = Some (Z.to_int z)).
  { intros z. apply NilZero.isi; destruct z; simpl; try discriminate;
      intros [= Hp]; exact (DecimalPos.Unsigned.to_uint_nonnil _ Hp). }
  apply DecimalZ.to_int_inj.
  pose proof (Hn a) as Ha. rewrite H, Hn in Ha. injection Ha as Ha. symmetry. exact Ha.
Qed.

(** Ids stay pairwise different as long as the clock does not repeat: when
    the ids of the array are the clock readings of earlier submissions, all
    different, and the reading of this submission is none of them, the ids
    after the submission are again all different. *)
Theorem handleFormSubmit_keeps_ids_distinct (now_id now_timestamp : Z) (st : State)
    (T : list Transaction) (readings : list Z) :
  transactions st = Ledger T ->
  rejected (Str.trim (descriptionInput st)) (parseFloat (amountInput st)) = false ->
  List.map id T = List.map Str.of_Z readings ->
  List.NoDup readings ->
  ~ In now_id readings ->
  exists st' L,
    handleFormSubmit now_id now_timestamp st = Normal st'
    /\ transactions st' = Ledger L
    /\ List.map id L ≡ₚ List.map Str.of_Z (readings ++ [now_id])
    /\ List.NoDup (List.map id L).
Proof.
  intros HT Hr Hids Hnd Hnew.
  rewrite (ScriptFacts.handleFormSubmit_accepted _ _ _ T HT Hr).
  set (new := newTransaction now_id now_timestamp st).
  assert (HP : List.map id (JSArray.sort by_timestamp_desc
                              (List.map reloaded (T ++ [new])))
               ≡ₚ List.map Str.of_Z (readings ++ [now_id])).
  { rewrite (Permutation_map id (SortFacts.sort_perm by_timestamp_desc _)).
    rewrite id_reloaded, !List.map_app, Hids. reflexivity. }
  eexists _, _. split; [reflexivity|]. split; [reflexivity|].
  split; [exact HP|].
  apply (Permutation.Permutation_NoDup (Permutation_sym HP)).
  apply Finite.Injective_map_NoDup; [intros a b; apply of_Z_inj|].
  apply (Permutation.Permutation_NoDup (Permutation_cons_append readings now_id)).
  constructor; assumption.
Qed.

Lemma handleFormSubmit_keeps_ids_distinct_witness :
  exists st' L,
    handleFormSubmit 3 3 (Sample.filled "Gift" "25" (Sample.holding [Sample.pay; Sample.rent]))
    = Normal st'
    /\ transactions st' = Ledger L
    /\ List.map id L ≡ₚ List.map Str.of_Z ([2; 1] ++ [3])
    /\ List.NoDup (List.map id L).
Proof.
  apply (handleFormSubmit_keeps_ids_distinct 3 3
           (Sample.filled "Gift" "25" (Sample.holding [Sample.pay; Sample.rent]))
           [Sample.pay; Sample.rent] [2; 1]).
  - reflexivity.
  - reflexivity.
  - reflexivity.
  - constructor; [intros [H|[]]; discriminate H|].
    constructor; [intros []|constructor].
  - intros [H|[H|[]]]; discriminate H.
Defined.

(** ** Starting up *)

(** With nothing stored under the key, or the empty string stored,
    [loadTransactions] leaves the array variable alone, and the page starts
    with an empty array, the placeholder row, three zero figures, no
    message, and the storage untouched. *)
Theorem onload_without_stored_text (storage : gmap string JSON.Text) :
  storage !! storageKey = None \/ storage !! storageKey = Some (JSON.malformed "") ->
  loadTransactions (page storage) = page storage
  /\ exists st',
       onload storage = Normal st'
       /\ transactions st' = Ledger []
       /\ transactionList st' = [placeholder]
       /\ summary_shown st' = (formatCurrency 0, formatCurrency 0, formatCurrency 0)
       /\ messageBox st' = messageBox (page storage)
       /\ localStorage st' = storage.
Proof.
  intros H.
  assert (Hl : loadTransactions (page storage) = page storage).
  { unfold loadTransactions. cbn [localStorage page].
    destruct H as [-> | ->]; reflexivity. }
  split; [exact Hl|]. unfold onload, init. rewrite Hl.
  rewrite (ScriptFacts.refresh_ledger _ []) by reflexivity.
  eexists. repeat split.
Qed.

Lemma onload_without_stored_text_witness :
  loadTransactions (page ∅) = page ∅
  /\ exists st',
       onload ∅ = Normal st'
       /\ transactions st' = Ledger []
       /\ transactionList st' = [placeholder]
       /\ summary_shown st' = (formatCurrency 0, formatCurrency 0, formatCurrency 0)
       /\ messageBox st' = messageBox (page ∅)
       /\ localStorage st' = ∅.
Proof.
  apply (onload_without_stored_text ∅). left. vm_compute. reflexivity.
Defined.

Lemma truthy_malformed (s : string) : s <> "" -> JSON.truthy (JSON.malformed s) = true.
Proof.
  intros H. cbn [JSON.truthy]. apply negb_true_iff, String.eqb_neq, H.
Qed.

(** A stored text that cannot be parsed is never repaired by loading: the
    message says the data was reset, but [init] leaves the storage as it
    was, so the next [init] meets the same text, shows the same error again
    and logs it again. *)
Theorem init_keeps_unreadable_text (st : State) (s : string) :
  localStorage st !! storageKey = Some (JSON.malformed s) ->
  s <> "" ->
  exists st',
    init st = Normal st'
    /\ localStorage st' = localStorage st
    /\ exists st'',
         init st' = Normal st''
         /\ localStorage st'' = localStorage st
         /\ textContent (messageBox st'') = "Error loading data. Data reset."
         /\ timeouts st'' = timeouts st ++ [3000; 3000]
         /\ length (console st'') = S (S (length (console st))).
Proof.
  intros Hs Hne.
  assert (Hl : forall st0, localStorage st0 = localStorage st ->
            loadTransactions st0
            = showMessage "Error loading data. Data reset." "error"
                (set_transactions (Ledger [])
                   (console_error "Error parsing transactions from localStorage:" st0))).
  { intros st0 H0. unfold loadTransactions.
    rewrite H0, Hs, (truthy_malformed s Hne). reflexivity. }
  unfold init. rewrite (Hl st eq_refl).
  rewrite (ScriptFacts.refresh_ledger _ []) by reflexivity.
  eexists. split; [reflexivity|]. split; [reflexivity|].
  rewrite Hl by reflexivity.
  rewrite (ScriptFacts.refresh_ledger _ []) by reflexivity.
  eexists. split; [reflexivity|]. split; [reflexivity|]. split; [reflexivity|].
  split.
  - cbn [timeouts refreshed showMessage set_message set_transactionList
         set_transactions set_displays console_error].
    rewrite <- app_assoc. reflexivity.
  - cbn [console refreshed showMessage set_message set_transactionList
         set_transactions set_displays console_error].
    rewrite !length_app. simpl. lia.
Qed.

Lemma init_keeps_unreadable_text_witness :
  let st := page {[ storageKey := JSON.malformed "[{oops" ]} in
  exists st',
    init st = Normal st'
    /\ localStorage st' = localStorage st
    /\ exists st'',
         init st' = Normal st''
         /\ localStorage st'' = localStorage st
         /\ textContent (messageBox st'') = "Error loading data. Data reset."
         /\ timeouts st'' = timeouts st ++ [3000; 3000]
         /\ length (console st'') = S (S (length (console st))).
Proof.
  apply (init_keeps_unreadable_text
           (page {[ storageKey := JSON.malformed "[{oops" ]}) "[{oops").
  - vm_compute. reflexivity.
  - discriminate.
Defined.

Lemma store_of_non_array (v : JSValue) : is_array v = false -> store_of v = Foreign v.
Proof. destruct v; try reflexivity; discriminate. Qed.

(** A stored text that is valid JSON but not an array stops the script for
    good: [init] throws at start-up, and from then on every accepted
    submission and every deletion throws before anything is saved, so the
    storage keeps the text. *)
Theorem stored_non_array_blocks_script (storage : gmap string JSON.Text) (v : JSValue) :
  storage !! storageKey = Some (JSON.text v) ->
  is_array v = false ->
  exists st,
    onload storage = Throw TypeError st
    /\ transactions st = Foreign v
    /\ localStorage st = storage
    /\ (forall now_id now_timestamp d a,
          rejected (Str.trim d) (parseFloat a) = false ->
          handleFormSubmit now_id now_timestamp (set_inputs d a st)
          = Throw TypeError (set_inputs d a st))
    /\ (forall i, deleteTransaction i st = Throw TypeError st).
Proof.
  intros Hs Hv.
  exists (set_transactions (Foreign v) (page storage)).
  split.
  { unfold onload, init, loadTransactions. cbn [localStorage page].
    rewrite Hs. cbn [JSON.truthy JSON.parse]. rewrite (store_of_non_array v Hv).
    unfold updateSummary. cbn [transactions set_transactions].
    destruct v; try reflexivity; discriminate Hv. }
  split; [reflexivity|]. split; [reflexivity|]. split.
  - intros now_id now_timestamp d a Hr. unfold handleFormSubmit.
    cbn [descriptionInput amountInput set_inputs]. rewrite Hr.
    unfold push. cbn [transactions set_transactions set_inputs].
    destruct v; try reflexivity; discriminate Hv.
  - intros i. unfold deleteTransaction. cbn [transactions set_transactions].
    destruct v; try reflexivity; discriminate Hv.
Qed.

Lemma stored_non_array_blocks_script_witness :
  let storage : gmap string JSON.Text := {[ storageKey := JSON.text JNull ]} in
  exists st,
    onload storage = Throw TypeError st
    /\ transactions st = Foreign JNull
    /\ localStorage st = storage
    /\ (forall now_id now_timestamp d a,
          rejected (Str.trim d) (parseFloat a) = false ->
          handleFormSubmit now_id now_timestamp (set_inputs d a st)
          = Throw TypeError (set_inputs d a st))
    /\ (forall i, deleteTransaction i st = Throw TypeError st).
Proof.
  apply (stored_non_array_blocks_script {[ storageKey := JSON.text JNull ]} JNull).
  - vm_compute. reflexivity.
  - reflexivity.
Defined.

(** ** Persistence across page loads *)

Lemma loadTransactions_page_saved (st : State) (T : list Transaction) :
  transactions st = Ledger T ->
  loadTransactions (page (localStorage (saveTransactions st)))
  = set_transactions (Ledger (List.map reloaded T))
      (page (localStorage (saveTransactions st))).
Proof.
  intros H. unfold loadTransactions, saveTransactions.
  cbn [localStorage set_localStorage page]. rewrite lookup_insert_eq, H.
  pose proof (CodecFacts.parse_stringify_ledger T) as Hp.
  cbn [JSON.truthy JSON.stringify] in *.
  destruct (JSON.parse _) as [v|]; [|discriminate Hp].
  cbn [option_map] in Hp. injection Hp as ->. reflexivity.
Qed.

(** What a save followed by [init] leaves on the page is what a fresh load
    of the page shows from the storage alone: the same array, the same
    rows and the same three figures.  Both [handleFormSubmit] and
    [deleteTransaction] end with this save followed by [init]. *)
Theorem page_reload_after_save (st : State) (T : list Transaction) :
  transactions st = Ledger T ->
  exists st1 st2,
    init (saveTransactions st) = Normal st1
    /\ onload (localStorage st1) = Normal st2
    /\ transactions st2 = transactions st1
    /\ transactionList st2 = transactionList st1
    /\ summary_shown st2 = summary_shown st1.
Proof.
  intros HT. rewrite (ScriptFacts.init_saved st T HT).
  eexists _, _. split; [reflexivity|].
  unfold onload, init. cbn [localStorage refreshed set_transactionList
                            set_transactions set_displays].
  rewrite (loadTransactions_page_saved st T HT).
  rewrite (ScriptFacts.refresh_ledger _ (List.map reloaded T)) by reflexivity.
  repeat split.
Qed.

Lemma page_reload_after_save_witness :
  exists st1 st2,
    init (saveTransactions (Sample.holding [Sample.rent; Sample.pay])) = Normal st1
    /\ onload (localStorage st1) = Normal st2
    /\ transactions st2 = transactions st1
    /\ transactionList st2 = transactionList st1
    /\ summary_shown st2 = summary_shown st1.
Proof.
  exact (page_reload_after_save (Sample.holding [Sample.rent; Sample.pay])
           [Sample.rent; Sample.pay] eq_refl).
Defined.

(** After any save followed by [init], deleting an id that no record
    carries leaves the array and the rows of the list exactly as they
    were. *)
Theorem deleteTransaction_absent_after_save (st : State) (T : list Transaction) :
  transactions st = Ledger T ->
  exists st1,
    init (saveTransactions st) = Normal st1
    /\ forall id', ~ In id' (List.map id T) ->
         exists st2,
           deleteTransaction id' st1 = Normal st2
           /\ transactions st2 = transactions st1
           /\ transactionList st2 = transactionList st1.
Proof.
  intros HT. rewrite (ScriptFacts.init_saved st T HT).
  set (L := JSArray.sort by_timestamp_desc (List.map reloaded T)).
  eexists. split; [reflexivity|]. intros id' Hid.
  assert (HidL : ~ In id' (List.map id L)).
  { intros Hin. apply Hid.
    apply (Permutation_in _ (Permutation_map id (SortFacts.sort_perm _ _))) in Hin.
    rewrite id_reloaded in Hin. exact Hin. }
  assert (Hst : Forall storable L).
  { apply (Permutation_Forall
             (Permutation_sym (SortFacts.sort_perm by_timestamp_desc _))).
    clear. induction T as [|t T IH]; constructor;
      [apply CodecFacts.storable_reloaded|exact IH]. }
  rewrite (ScriptFacts.deleteTransaction_ledger id' _ L) by reflexivity.
  cbv zeta. rewrite (filter_absent_id id' L HidL).
  rewrite (CodecFacts.reloaded_all_storable L Hst).
  eexists. split; [reflexivity|].
  cbn [transactions transactionList showMessage set_message refreshed
       set_transactionList set_transactions set_displays].
  assert (Hs : JSArray.sort by_timestamp_desc L = L).
  { apply (SortFacts.sort_idempotent by_timestamp_desc
             SortFacts.by_timestamp_desc_antisym). }
  rewrite Hs. split; reflexivity.
Qed.

Lemma deleteTransaction_absent_after_save_witness :
  exists st1,
    init (saveTransactions (Sample.holding [Sample.rent; Sample.pay])) = Normal st1
    /\ forall id', ~ In id' (List.map id [Sample.rent; Sample.pay]) ->
         exists st2,
           deleteTransaction id' st1 = Normal st2
           /\ transactions st2 = transactions st1
           /\ transactionList st2 = transactionList st1.
Proof.
  exact (deleteTransaction_absent_after_save (Sample.holding [Sample.rent; Sample.pay])
           [Sample.rent; Sample.pay] eq_refl).
Defined.

(** ** Rows *)

Lemma foldr_insert_newest (new : Transaction) (T : list Transaction) :
  Forall (fun x => Num.gtb (by_timestamp_desc x new) 0 = true) T ->
  JSArray.sort by_timestamp_desc (T ++ [new])
  = new :: JSArray.sort by_timestamp_desc T.
Proof.
  induction 1 as [|x T Hx _ IH]; [reflexivity|].
  cbn [app JSArray.sort foldr]. fold (JSArray.sort by_timestamp_desc (T ++ [new])).
  fold (JSArray.sort by_timestamp_desc T).
  rewrite IH. cbn [JSArray.insert]. rewrite Hx. reflexivity.
Qed.

(** A submission stamped later than every record of the array puts the new
    record first in the array and its row at the bottom of the list. *)
Theorem handleFormSubmit_newest_row_last (now_id now_timestamp : Z) (st : State)
    (T : list Transaction) :
  transactions st = Ledger T ->
  rejected (Str.trim (descriptionInput st)) (parseFloat (amountInput st)) = false ->
  let new := reloaded (newTransaction now_id now_timestamp st) in
  Forall (fun x => Num.gtb (by_timestamp_desc (reloaded x) new) 0 = true) T ->
  exists st' L,
    handleFormSubmit now_id now_timestamp st = Normal st'
    /\ transactions st' = Ledger (new :: L)
    /\ L ≡ₚ List.map reloaded T
    /\ last (transactionList st') = Some (item (listItem new)).
Proof.
  intros HT Hr new Hnew.
  rewrite (ScriptFacts.handleFormSubmit_accepted _ _ _ T HT Hr).
  assert (Hs : JSArray.sort by_timestamp_desc
                 (List.map reloaded (T ++ [newTransaction now_id now_timestamp st]))
               = new :: JSArray.sort by_timestamp_desc (List.map reloaded T)).
  { rewrite List.map_app. apply foldr_insert_newest.
    clear -Hnew. induction Hnew; constructor; assumption. }
  eexists _, _. split; [reflexivity|].
  cbn [transactions transactionList showMessage set_message set_inputs refreshed
       set_transactionList set_transactions set_displays].
  rewrite Hs. split; [reflexivity|]. split; [apply SortFacts.sort_perm|].
  cbn [rows List.map rev]. apply last_snoc.
Qed.

Lemma handleFormSubmit_newest_row_last_witness :
  let st := Sample.filled "Gift" "25" (Sample.holding [Sample.pay; Sample.rent]) in
  let new := reloaded (newTransaction 3 3 st) in
  exists st' L,
    handleFormSubmit 3 3 st = Normal st'
    /\ transactions st' = Ledger (new :: L)
    /\ L ≡ₚ List.map reloaded [Sample.pay; Sample.rent]
    /\ last (transactionList st') = Some (item (listItem new)).
Proof.
  apply (handleFormSubmit_newest_row_last 3 3
           (Sample.filled "Gift" "25" (Sample.holding [Sample.pay; Sample.rent]))
           [Sample.pay; Sample.rent]).
  - reflexivity.
  - reflexivity.
  - constructor; [reflexivity|]. constructor; [reflexivity|]. constructor.
Defined.

(** ** Storage *)

(** The script reads and writes one key of the storage only: whatever else
    is stored stays as it is through every submission and every deletion. *)
Theorem handlers_keep_other_keys (st : State) (T : list Transaction) (k : string) :
  transactions st = Ledger T ->
  k <> storageKey ->
  (forall now_id now_timestamp, exists st',
      handleFormSubmit now_id now_timestamp st = Normal st'
      /\ localStorage st' !! k = localStorage st !! k)
  /\ (forall i, exists st',
        deleteTransaction i st = Normal st'
        /\ localStorage st' !! k = localStorage st !! k).
Proof.
  intros HT Hk. split.
  - intros now_id now_timestamp.
    destruct (rejected (Str.trim (descriptionInput st)) (parseFloat (amountInput st)))
      eqn:Hr.
    + rewrite (ScriptFacts.handleFormSubmit_rejected _ _ _ Hr).
      eexists. split; reflexivity.
    + rewrite (ScriptFacts.handleFormSubmit_accepted _ _ _ T HT Hr).
      eexists. split; [reflexivity|].
      cbn [localStorage showMessage set_message set_inputs refreshed
           set_transactionList set_transactions set_displays saveTransactions
           set_localStorage].
      apply lookup_insert_ne. congruence.
  - intros i. rewrite (ScriptFacts.deleteTransaction_ledger i st T HT).
    eexists. split; [reflexivity|].
    cbn [localStorage showMessage set_message refreshed
         set_transactionList set_transactions set_displays saveTransactions
         set_localStorage].
    apply lookup_insert_ne. congruence.
Qed.

Lemma handlers_keep_other_keys_witness :
  let st := Sample.filled "Gift" "25" (Sample.holding [Sample.pay]) in
  (forall now_id now_timestamp, exists st',
      handleFormSubmit now_id now_timestamp st = Normal st'
      /\ localStorage st' !! "theme" = localStorage st !! "theme")
  /\ (forall i, exists st',
        deleteTransaction i st = Normal st'
        /\ localStorage st' !! "theme" = localStorage st !! "theme").
Proof.
  apply (handlers_keep_other_keys
           (Sample.filled "Gift" "25" (Sample.holding [Sample.pay])) [Sample.pay] "theme").
  - reflexivity.
  - discriminate.
Defined.

Lemma init_saved_settles_witness :
  exists st' L,
    init (saveTransactions (Sample.holding [Sample.rent; Sample.windfall])) = Normal st'
    /\ transactions st' = Ledger L
    /\ Forall storable L /\ in_display_order L.
Proof.
  exact (init_saved_settles (Sample.holding [Sample.rent; Sample.windfall])
           [Sample.rent; Sample.windfall] eq_refl).
Defined.

(** ** Binary64 arithmetic: whole numbers *)

Module ExactFacts.
Import Exact.

Lemma digits_pos p : 0 < digits p.
Proof. unfold digits. lia. Qed.

Lemma digits2_pos_size p : digits2_pos p = Pos.size p.
Proof. induction p; simpl; congruence. Qed.

Lemma digits_log2 p : digits p = Z.log2 (Z.pos p) + 1.
Proof.
  unfold digits. rewrite digits2_pos_size.
  destruct p; simpl; rewrite ?Pos.add_1_r; try reflexivity; lia.
Qed.

Lemma digits_bound p : Z.pos p < 2 ^ 53 -> digits p <= 53.
Proof.
  intros H. rewrite digits_log2.
  apply Z.log2_lt_pow2 in H; lia.
Qed.

Lemma shl_0 p : shl p 0 = p.
Proof. reflexivity. Qed.

Lemma shl_succ p n : 0 <= n -> shl p (n + 1) = xO (shl p n).
Proof.
  intros H. destruct n as [|k|k]; try lia; [reflexivity|].
  change (Z.pos k + 1) with (Z.pos (k + 1)). unfold shl.
  rewrite Pos.add_1_r, Pos.iter_succ. reflexivity.
Qed.

Lemma shl_shl p a b : 0 <= a -> 0 <= b -> shl (shl p a) b = shl p (a + b).
Proof.
  intros Ha Hb. destruct a as [|a|a], b as [|b|b]; try lia; try reflexivity.
  simpl. rewrite Pos.add_comm, Pos.iter_add. reflexivity.
Qed.

Lemma digits_shl p n : 0 <= n -> digits (shl p n) = digits p + n.
Proof.
  intros H. pattern n. apply natlike_ind; [reflexivity| |exact H].
  intros x Hx IH. unfold Z.succ. rewrite (shl_succ p x Hx).
  unfold digits in *. simpl. lia.
Qed.

Lemma shl_add a b n : shl (a + b) n = (shl a n + shl b n)%positive.
Proof.
  destruct n as [|k|k]; try reflexivity. unfold shl.
  induction k using Pos.peano_ind.
  - reflexivity.
  - rewrite !Pos.iter_succ, IHk. reflexivity.
Qed.

Lemma fst_shl_align m e e' : fst (shl_align m e e') = shl m (e - e').
Proof.
  unfold shl_align. replace (e - e') with (- (e' - e)) by lia.
  destruct (e' - e); reflexivity.
Qed.

Lemma snd_shl_align m e e' : snd (shl_align m e e') = Z.min e e'.
Proof.
  unfold shl_align. destruct (e' - e) eqn:H; simpl; lia.
Qed.

Lemma iter_pos_iter {A} (f : A -> A) n : forall x,
  SpecFloat.iter_pos f n x = Pos.iter f x n.
Proof.
  induction n as [n IH|n IH|]; intros x; simpl.
  - rewrite !IH, !Pos.iter_swap. reflexivity.
  - rewrite !IH. reflexivity.
  - reflexivity.
Qed.

Lemma shr_exact c n : forall k,
  Z.pos n <= k ->
  Pos.iter shr_1 (exact (shl c k)) n = exact (shl c (k - Z.pos n)).
Proof.
  induction n using Pos.peano_ind; intros k Hk.
  - replace k with ((k - 1) + 1) at 1 by lia.
    rewrite shl_succ by lia. reflexivity.
  - rewrite Pos.iter_succ, IHn by lia.
    replace (k - Z.pos n) with ((k - Z.pos (Pos.succ n)) + 1) by lia.
    rewrite shl_succ by lia. reflexivity.
Qed.

Lemma fexp_value e : -1021 <= e -> fexp 53 1024 e = e - 53.
Proof. intros H. unfold fexp, SpecFloat.emin. lia. Qed.

(** Rounding a mantissa that has at most 53 significant bits is exact. *)
Lemma binary_round_aux_exact s c k e :
  digits c <= 53 -> 53 <= digits c + k ->
  -1021 <= digits c + k + e <= 1024 ->
  binary_round_aux 53 1024 s (Z.pos (shl c k)) e loc_Exact
  = S754_finite s (shl c (53 - digits c)) (digits c + k + e - 53).
Proof.
  intros Hd Hk He.
  pose proof (digits_pos c) as Hp.
  assert (Hk0 : 0 <= k) by lia.
  unfold binary_round_aux, shr_fexp.
  change (Zdigits2 (Z.pos (shl c k))) with (digits (shl c k)).
  rewrite digits_shl, fexp_value by lia.
  cbn [shr_record_of_loc]. fold (exact (shl c k)).
  assert (H1 : shr (exact (shl c k)) e (digits c + k + e - 53 - e)
               = (exact (shl c (53 - digits c)), digits c + k + e - 53)).
  { unfold shr. destruct (digits c + k + e - 53 - e) as [|n|n] eqn:Hn; try lia.
    - f_equal; [f_equal; f_equal; lia|lia].
    - rewrite iter_pos_iter, shr_exact by lia. f_equal; [f_equal; f_equal; lia|lia]. }
  rewrite H1. cbn [exact shr_m loc_of_shr_record shr_r shr_s round_nearest_even].
  change (Zdigits2 (Z.pos (shl c (53 - digits c)))) with (digits (shl c (53 - digits c))).
  rewrite digits_shl, fexp_value by lia.
  replace (digits c + (53 - digits c) + (digits c + k + e - 53) - 53
           - (digits c + k + e - 53)) with 0 by lia.
  cbn [shr_record_of_loc shr shr_m].
  destruct (Z.leb_spec (digits c + k + e - 53) (1024 - 53)); [reflexivity|lia].
Qed.

Lemma binary_round_exact s c k e :
  digits c <= 53 -> 0 <= k ->
  -1021 <= digits c + k + e <= 1024 ->
  binary_round 53 1024 s (shl c k) e
  = S754_finite s (shl c (53 - digits c)) (digits c + k + e - 53).
Proof.
  intros Hd Hk He. pose proof (digits_pos c) as Hp.
  unfold binary_round.
  rewrite (surjective_pairing (shl_align _ _ _)), fst_shl_align, snd_shl_align.
  change (Z.pos (digits2_pos (shl c k))) with (digits (shl c k)).
  rewrite digits_shl, fexp_value by lia.
  destruct (Z.le_gt_cases 53 (digits c + k)) as [Hge|Hlt].
  - replace (e - (digits c + k + e - 53)) with (- (digits c + k - 53)) by lia.
    assert (Hs : shl (shl c k) (- (digits c + k - 53)) = shl c k).
    { destruct (digits c + k - 53) eqn:Hn; try lia; reflexivity. }
    rewrite Hs, Z.min_l by lia. apply binary_round_aux_exact; lia.
  - rewrite shl_shl by lia. rewrite Z.min_r by lia.
    replace (k + (e - (digits c + k + e - 53))) with (53 - digits c) by lia.
    rewrite (binary_round_aux_exact s c (53 - digits c)) by lia.
    f_equal. lia.
Qed.

Lemma binary_normalize_whole z :
  - 2 ^ 53 < z < 2 ^ 53 ->
  binary_normalize 53 1024 z 0 false = of_whole z.
Proof.
  intros H. destruct z as [|p|p]; [reflexivity| |];
    unfold binary_normalize, of_whole, canonical;
    rewrite <- (shl_0 p) at 1;
    (rewrite binary_round_exact;
     [f_equal; lia|apply digits_bound; lia|lia|
      pose proof (digits_pos p); pose proof (digits_bound p); lia]).
Qed.

Lemma valid_canonical s p :
  Z.pos p < 2 ^ 53 -> SpecFloat.valid_binary 53 1024 (canonical s p) = true.
Proof.
  intros H. assert (Hd : digits p <= 53) by (apply digits_bound; lia).
  pose proof (digits_pos p).
  unfold canonical, SpecFloat.valid_binary, bounded, canonical_mantissa.
  change (Z.pos (digits2_pos (shl p (53 - digits p))))
    with (digits (shl p (53 - digits p))).
  rewrite digits_shl, fexp_value by lia.
  apply andb_true_iff; split; [apply Z.eqb_eq|apply Z.leb_le]; lia.
Qed.

Lemma valid_of_whole z :
  - 2 ^ 53 < z < 2 ^ 53 -> SpecFloat.valid_binary 53 1024 (of_whole z) = true.
Proof.
  intros H. destruct z as [|p|p]; [reflexivity| |]; apply valid_canonical; lia.
Qed.

Lemma Prim2SF_of_Z z : - 2 ^ 53 < z < 2 ^ 53 -> Prim2SF (Num.of_Z z) = of_whole z.
Proof.
  intros H. unfold Num.of_Z. change prec with 53. change emax with 1024.
  rewrite binary_normalize_whole by exact H.
  apply Prim2SF_SF2Prim, valid_of_whole, H.
Qed.

(** Adding two whole numbers of the same sign is exact below [2^53]. *)
Lemma SFadd_canonical s a b :
  Z.pos a + Z.pos b < 2 ^ 53 ->
  SFadd 53 1024 (canonical s a) (canonical s b) = canonical s (a + b).
Proof.
  intros H.
  assert (Ha : digits a <= 53) by (apply digits_bound; lia).
  assert (Hb : digits b <= 53) by (apply digits_bound; lia).
  assert (Hc : digits (a + b) <= 53) by (apply digits_bound; lia).
  pose proof (digits_pos a). pose proof (digits_pos b). pose proof (digits_pos (a + b)).
  unfold canonical. cbn [SFadd]. rewrite !fst_shl_align, !shl_shl by lia.
  set (ez := Z.min (digits a - 53) (digits b - 53)).
  replace (53 - digits a + (digits a - 53 - ez)) with (- ez) by lia.
  replace (53 - digits b + (digits b - 53 - ez)) with (- ez) by lia.
  assert (Hn : binary_normalize 53 1024
                 (cond_Zopp s (Z.pos (shl a (- ez))) + cond_Zopp s (Z.pos (shl b (- ez))))
                 ez false
               = binary_round 53 1024 s (shl (a + b) (- ez)) ez).
  { rewrite shl_add. destruct s; reflexivity. }
  rewrite Hn, binary_round_exact by lia. f_equal. lia.
Qed.

Lemma add_of_Z a b :
  (0 < a /\ 0 < b \/ a < 0 /\ b < 0) ->
  - 2 ^ 53 < a + b < 2 ^ 53 ->
  (Num.of_Z a + Num.of_Z b)%float = Num.of_Z (a + b).
Proof.
  intros Hs Hb. apply Prim2SF_inj.
  rewrite add_spec, !Prim2SF_of_Z by lia. change prec with 53. change emax with 1024.
  destruct a as [|a|a], b as [|b|b]; try lia; cbn [of_whole Z.add];
    apply SFadd_canonical; lia.
Qed.

End ExactFacts.

(** ** Totals of whole amounts *)

Module WholeFacts.
Import Exact ExactFacts Whole.

Lemma sign_of_Z z :
  - 2 ^ 53 < z < 2 ^ 53 ->
  Num.gtb (Num.of_Z z) 0 = (0 <? z) /\ PrimFloat.ltb (Num.of_Z z) 0 = (z <? 0).
Proof.
  intros H. unfold Num.gtb. rewrite !ltb_spec, Prim2SF_of_Z by exact H.
  change (Prim2SF 0) with (S754_zero false).
  destruct z; split; reflexivity.
Qed.

Lemma zero_add_of_Z z :
  - 2 ^ 53 < z < 2 ^ 53 -> (0 + Num.of_Z z)%float = Num.of_Z z.
Proof.
  intros H. apply Prim2SF_inj. rewrite add_spec, Prim2SF_of_Z by exact H.
  change (Prim2SF 0) with (S754_zero false). destruct z; reflexivity.
Qed.

Lemma credit_debit_bounds zs : 0 <= credit zs /\ debit zs <= 0.
Proof.
  induction zs as [|z zs [Hc Hd]]; simpl; [lia|].
  fold (credit zs). fold (debit zs). lia.
Qed.

Lemma income_of_whole zs : forall acc,
  0 <= acc -> acc + credit zs < 2 ^ 53 -> - 2 ^ 53 < debit zs ->
  fold_left add_amount
    (List.filter (fun item => Num.gtb (ToNumber item) 0) (List.map whole zs))
    (Num.of_Z acc)
  = Num.of_Z (acc + credit zs).
Proof.
  induction zs as [|z zs IH]; intros acc Hacc Hc Hd; cbn [credit debit fold_right] in *.
  - simpl. f_equal. lia.
  - pose proof (credit_debit_bounds zs) as [Hc0 Hd0].
    fold (credit zs) in *. fold (debit zs) in *.
    cbn [List.map List.filter whole ToNumber].
    destruct (sign_of_Z z) as [Hs _]; [lia|]. rewrite Hs.
    destruct (Z.ltb_spec 0 z) as [Hz|Hz].
    + cbn [fold_left].
      assert (Hadd : (Num.of_Z acc + Num.of_Z z)%float = Num.of_Z (acc + z)).
      { destruct (Z.eq_dec acc 0) as [->|Hne].
        - apply zero_add_of_Z. lia.
        - apply add_of_Z; lia. }
      replace (add_amount (Num.of_Z acc) (whole z)) with (Num.of_Z (acc + z))
        by (symmetry; exact Hadd).
      rewrite IH by lia. f_equal. lia.
    + rewrite IH by lia. f_equal. lia.
Qed.

Lemma expense_of_whole zs : forall acc,
  acc <= 0 -> - 2 ^ 53 < acc + debit zs -> credit zs < 2 ^ 53 ->
  fold_left add_amount
    (List.filter (fun item => PrimFloat.ltb (ToNumber item) 0) (List.map whole zs))
    (Num.of_Z acc)
  = Num.of_Z (acc + debit zs).
Proof.
  induction zs as [|z zs IH]; intros acc Hacc Hd Hc; cbn [credit debit fold_right] in *.
  - simpl. f_equal. lia.
  - pose proof (credit_debit_bounds zs) as [Hc0 Hd0].
    fold (credit zs) in *. fold (debit zs) in *.
    cbn [List.map List.filter whole ToNumber].
    destruct (sign_of_Z z) as [_ Hs]; [lia|]. rewrite Hs.
    destruct (Z.ltb_spec z 0) as [Hz|Hz].
    + cbn [fold_left].
      assert (Hadd : (Num.of_Z acc + Num.of_Z z)%float = Num.of_Z (acc + z)).
      { destruct (Z.eq_dec acc 0) as [->|Hne].
        - apply zero_add_of_Z. lia.
        - apply add_of_Z; lia. }
      replace (add_amount (Num.of_Z acc) (whole z)) with (Num.of_Z (acc + z))
        by (symmetry; exact Hadd).
      rewrite IH by lia. f_equal. lia.
    + rewrite IH by lia. f_equal. lia.
Qed.

Lemma credit_perm zs zs' : zs ≡ₚ zs' -> credit zs = credit zs' /\ debit zs = debit zs'.
Proof.
  unfold credit, debit. induction 1; simpl in *; lia.
Qed.

(** The totals of a ledger of whole amounts are the exact sums. *)
Lemma totals_of_whole (T : list Transaction) zs :
  amounts T = List.map whole zs ->
  credit zs < 2 ^ 53 -> - 2 ^ 53 < debit zs ->
  totalIncome T = Num.of_Z (credit zs) /\ totalExpense T = Num.of_Z (debit zs).
Proof.
  intros Ha Hc Hd. unfold totalIncome, totalExpense. rewrite Ha.
  pose proof (credit_debit_bounds zs) as [Hc0 Hd0].
  split.
  - apply (income_of_whole zs 0); lia.
  - apply (expense_of_whole zs 0); lia.
Qed.

End WholeFacts.

(** C10, amended: when the amounts of the ledger are whole numbers, the
    positive ones adding up to less than [2^53] and the negative ones to
    more than [-2^53], every permutation of its transactions gives the same
    income, the same expense and the same balance: the income and the
    expense are then the exact sums.  Beyond that bound the totals can
    depend on the order, since binary64 addition rounds. *)
Theorem summary_of_permutation (T T' : list Transaction) (zs : list Z) :
  T ≡ₚ T' ->
  amounts T = List.map Whole.whole zs ->
  Whole.credit zs < 2 ^ 53 ->
  - 2 ^ 53 < Whole.debit zs ->
  totalIncome T' = totalIncome T
  /\ totalExpense T' = totalExpense T
  /\ netBalance T' = netBalance T
  /\ totalIncome T = Num.of_Z (Whole.credit zs)
  /\ totalExpense T = Num.of_Z (Whole.debit zs).
Proof.
  intros HP Ha Hc Hd.
  destruct (WholeFacts.totals_of_whole T zs Ha Hc Hd) as [Hi He].
  assert (HP' : amounts T' ≡ₚ List.map Whole.whole zs).
  { rewrite <- Ha. apply Permutation_map, Permutation_sym, HP. }
  destruct (Permutation_map_inv Whole.whole zs HP') as (zs' & Ha' & Hzs).
  destruct (WholeFacts.credit_perm zs zs' Hzs) as [Hcz Hdz].
  destruct (WholeFacts.totals_of_whole T' zs' Ha') as [Hi' He']; [lia|lia|].
  assert (Hinc : totalIncome T' = totalIncome T) by (rewrite Hi, Hi', Hcz; reflexivity).
  assert (Hexp : totalExpense T' = totalExpense T) by (rewrite He, He', Hdz; reflexivity).
  unfold netBalance. rewrite Hinc, Hexp. auto.
Qed.

Lemma summary_of_permutation_witness :
  let T := [Sample.pay; Sample.rent; Sample.gift] in
  let T' := [Sample.gift; Sample.rent; Sample.pay] in
  totalIncome T' = totalIncome T
  /\ totalExpense T' = totalExpense T
  /\ netBalance T' = netBalance T
  /\ totalIncome T = Num.of_Z 125
  /\ totalExpense T = Num.of_Z (-40).
Proof.
  apply (summary_of_permutation [Sample.pay; Sample.rent; Sample.gift]
           [Sample.gift; Sample.rent; Sample.pay] [100; -40; 25]).
  - apply (Permutation_rev [Sample.pay; Sample.rent; Sample.gift]).
  - vm_compute. reflexivity.
  - reflexivity.
  - reflexivity.
Defined.

(** ** The summary as it is shown *)

Module NaNFacts.

Lemma binary_normalize_not_nan prec emax m e sz :
  binary_normalize prec emax m e sz <> S754_nan.
Proof.
  intros H. destruct m as [|p|p].
  - discriminate H.
  - pose proof (FloatFacts.binary_round_sign prec emax false p e) as Hs.
    simpl in H. rewrite H in Hs. exact Hs.
  - pose proof (FloatFacts.binary_round_sign prec emax true p e) as Hs.
    simpl in H. rewrite H in Hs. exact Hs.
Qed.

Lemma SFadd_nan prec emax a b :
  SFleb (S754_zero false) a = true -> SFleb b (S754_zero false) = true ->
  SFadd prec emax a b = S754_nan ->
  a = S754_infinity false /\ b = S754_infinity true.
Proof.
  intros Ha Hb H.
  destruct a as [sa|sa| |sa ma ea], b as [sb|sb| |sb mb eb];
    try destruct sa; try destruct sb;
    try discriminate Ha; try discriminate Hb; try discriminate H; auto.
  cbn [SFadd] in H. exfalso. exact (binary_normalize_not_nan _ _ _ _ _ H).
Qed.

Lemma SFeqb_refl r : r <> S754_nan -> SFeqb r r = true.
Proof.
  destruct r as [s|s| |s m e]; intros H; try contradiction.
  - reflexivity.
  - destruct s; reflexivity.
  - unfold SFeqb. rewrite FloatOrder.SFcompare_finite_refl. reflexivity.
Qed.

(** A sum of a number that is at least zero and a number that is at most
    zero is NaN only as [Infinity + -Infinity]. *)
Lemma add_is_nan (x y : float) :
  PrimFloat.leb 0 x = true -> PrimFloat.leb y 0 = true ->
  Num.isNaN (x + y) = true <-> x = infinity /\ y = neg_infinity.
Proof.
  intros Hx Hy. split.
  - unfold Num.isNaN, PrimFloat.is_nan. rewrite negb_true_iff, FloatAxioms.eqb_spec.
    intros Hn. rewrite leb_spec in Hx, Hy.
    change (Prim2SF 0) with (S754_zero false) in Hx, Hy.
    destruct (SFadd_nan prec emax (Prim2SF x) (Prim2SF y) Hx Hy) as [Hxi Hyi].
    + rewrite <- add_spec.
      destruct (Prim2SF (x + y)) as [s|s| |s m e] eqn:Hr; try reflexivity;
        rewrite SFeqb_refl in Hn by discriminate; discriminate Hn.
    + split; apply Prim2SF_inj; [rewrite Hxi|rewrite Hyi]; reflexivity.
  - intros [-> ->]. reflexivity.
Qed.

End NaNFacts.

Lemma sum_where_fold (keep : float -> bool) (T : list Transaction) : forall acc,
  fold_left (fun acc item => PrimFloat.add acc (ToNumber item))
    (List.filter (fun item => keep (ToNumber item)) (amounts T)) acc
  = sum_where keep acc T.
Proof.
  induction T as [|t T IH]; intros acc; [reflexivity|].
  cbn [amounts List.map List.filter sum_where].
  destruct (keep (ToNumber (amount t))); [cbn [fold_left]|]; apply IH.
Qed.

(** Four finite amounts, each of which the form accepts: the income is
    [Infinity], the expense [-Infinity], and the balance NaN, which is not
    equal to anything, itself included. *)
Lemma balance_overflows_to_NaN :
  let T := Overflow.ledger in
  PrimFloat.eqb (parseFloat "1.7976931348623157e308") Overflow.huge = true
  /\ totalIncome T = infinity
  /\ totalExpense T = neg_infinity
  /\ PrimFloat.eqb (netBalance T) (totalIncome T + totalExpense T) = false
  /\ exists st', updateSummary (Sample.holding T) = Normal st'
       /\ balanceDisplay st' = formatCurrency nan.
Proof.
  cbv zeta. repeat split; try (vm_compute; reflexivity).
  eexists. split; vm_compute; reflexivity.
Qed.

(** C3, amended: whatever records the array holds, [updateSummary] shows a
    balance, an income and an expense (the expense as its absolute value)
    where the income is the sum of the positive amounts and the expense the
    sum of the negative amounts, added from left to right; the income is at
    least zero, the expense at most zero, and the balance is computed as the
    income plus the expense.  The balance equals that sum as a number in
    every case but one: when the income is [Infinity] and the expense
    [-Infinity] the balance is NaN. *)
Theorem updateSummary_invariant (st : State) (T : list Transaction) :
  exists st' balance income expense,
    updateSummary (set_transactions (Ledger T) st) = Normal st'
    /\ balanceDisplay st' = formatCurrency balance
    /\ incomeDisplay st' = formatCurrency income
    /\ expenseDisplay st' = formatCurrency (Num.abs expense)
    /\ income = sum_where above_zero 0 T
    /\ expense = sum_where below_zero 0 T
    /\ balance = (income + expense)%float
    /\ PrimFloat.leb 0 income = true
    /\ PrimFloat.leb expense 0 = true
    /\ (PrimFloat.eqb balance (income + expense) = true
        <-> ~ (income = infinity /\ expense = neg_infinity)).
Proof.
  exists (set_displays (formatCurrency (netBalance T)) (formatCurrency (totalIncome T))
            (formatCurrency (Num.abs (totalExpense T))) (set_transactions (Ledger T) st)),
    (netBalance T), (totalIncome T), (totalExpense T).
  pose proof (totalIncome_nonneg T) as Hi. pose proof (totalExpense_nonpos T) as He.
  split; [reflexivity|]. split; [reflexivity|]. split; [reflexivity|].
  split; [reflexivity|]. split; [apply (sum_where_fold above_zero)|].
  split; [apply (sum_where_fold below_zero)|]. split; [reflexivity|].
  split; [exact Hi|]. split; [exact He|].
  rewrite <- (NaNFacts.add_is_nan _ _ Hi He). fold (netBalance T).
  unfold Num.isNaN, PrimFloat.is_nan.
  destruct (PrimFloat.eqb (netBalance T) (netBalance T)); simpl; split;
    congruence.
Qed.

(** ** Deleting an id that is not there *)

(** Two arrays that deleting an absent id changes: one that is not in
    display order comes back sorted, and one loaded from a stored text with
    the amount [1e999] comes back with that amount [null]. *)
Lemma deleteTransaction_absent_id_changes_array :
  (exists st',
     deleteTransaction "zzz" (Sample.holding [Sample.rent; Sample.pay]) = Normal st'
     /\ transactions st' = Ledger [Sample.pay; Sample.rent])
  /\ exists st1 st2,
       onload {[ storageKey := JSON.text (value_of (Ledger [Sample.windfall])) ]}
       = Normal st1
       /\ transactions st1 = Ledger [Sample.windfall]
       /\ deleteTransaction "zzz" st1 = Normal st2
       /\ transactions st2
          = Ledger [{| id := "5"; description := "Bonus";
                       amount := Null; timestamp := Number 5%float |}].
Proof.
  split.
  - eexists. split; vm_compute; reflexivity.
  - eexists _, _. split; [vm_compute; reflexivity|].
    split; [reflexivity|]. split; vm_compute; reflexivity.
Qed.

(** C8, amended: deleting an id that no record of the array carries
    removes nothing: the filter keeps every record and the array written to
    storage is the array as it was.  [init] then reloads that array and
    sorts it, so the array afterwards holds the same records as they read
    back from storage, in display order; it is the very same array when the
    array was stored exactly and in display order, which is how every save
    followed by [init] leaves it.  The message shown is the success
    message, not an error. *)
Theorem deleteTransaction_absent_id (id' : string) (st : State)
    (T : list Transaction) :
  transactions st = Ledger T ->
  ~ In id' (List.map id T) ->
  exists st',
    deleteTransaction id' st = Normal st'
    /\ List.filter (fun t => negb (String.eqb (id t) id')) T = T
    /\ localStorage st' !! storageKey = Some (JSON.stringify (value_of (Ledger T)))
    /\ transactions st' = Ledger (JSArray.sort by_timestamp_desc (List.map reloaded T))
    /\ JSArray.sort by_timestamp_desc (List.map reloaded T) ≡ₚ List.map reloaded T
    /\ (Forall storable T -> in_display_order T -> transactions st' = Ledger T)
    /\ messageBox st'
       = messageBox (showMessage "Transaction deleted successfully!" "success" st).
Proof.
  intros HT Hid.
  pose proof (filter_absent_id id' T Hid) as Hf.
  pose proof (ScriptFacts.deleteTransaction_ledger id' st T HT) as Hd.
  cbv zeta in Hd. rewrite Hf in Hd. rewrite Hd.
  eexists. split; [reflexivity|]. split; [exact Hf|]. split.
  { cbn [localStorage showMessage set_message refreshed set_transactionList
         set_transactions set_displays saveTransactions set_localStorage
         transactions value_of].
    apply lookup_insert_eq. }
  split; [reflexivity|]. split; [apply SortFacts.sort_perm|].
  split; [|reflexivity].
  intros Hs Ho. cbn [transactions showMessage set_message refreshed
                     set_transactionList set_transactions].
  rewrite (CodecFacts.reloaded_all_storable T Hs).
  rewrite (SortFacts.sort_ordered_id by_timestamp_desc T Ho). reflexivity.
Qed.

Lemma deleteTransaction_absent_id_witness :
  let st := Sample.holding [Sample.pay; Sample.rent] in
  let T := [Sample.pay; Sample.rent] in
  exists st',
    deleteTransaction "zzz" st = Normal st'
    /\ List.filter (fun t => negb (String.eqb (id t) "zzz")) T = T
    /\ localStorage st' !! storageKey = Some (JSON.stringify (value_of (Ledger T)))
    /\ transactions st' = Ledger (JSArray.sort by_timestamp_desc (List.map reloaded T))
    /\ JSArray.sort by_timestamp_desc (List.map reloaded T) ≡ₚ List.map reloaded T
    /\ (Forall storable T -> in_display_order T -> transactions st' = Ledger T)
    /\ messageBox st'
       = messageBox (showMessage "Transaction deleted successfully!" "success" st).
Proof.
  apply (deleteTransaction_absent_id "zzz" (Sample.holding [Sample.pay; Sample.rent])
           [Sample.pay; Sample.rent]).
  - reflexivity.
  - vm_compute. intros [H|[H|[]]]; discriminate H.
Defined.

(** ** Clicking in the list *)

(** A click outside every delete button, or a declined confirmation,
    changes nothing at all.  A confirmed click on a delete button deletes
    by the [data-id] that button carries: afterwards no record of the array
    has that id, every record with another id is still there, and the
    storage holds the array without the deleted records. *)
Theorem handleListClick_confirmed_delete (i : string) (confirmed : bool) (st : State)
    (T : list Transaction) :
  transactions st = Ledger T ->
  handleListClick None confirmed st = Normal st
  /\ handleListClick (Some i) false st = Normal st
  /\ exists st' L,
       handleListClick (Some i) true st = Normal st'
       /\ transactions st' = Ledger L
       /\ ~ In i (List.map id L)
       /\ (forall t, In t T -> id t <> i -> In (reloaded t) L)
       /\ localStorage st' !! storageKey
          = Some (JSON.stringify (value_of (Ledger (kept i T)))).
Proof.
  intros HT. split; [reflexivity|]. split; [reflexivity|].
  cbn [handleListClick].
  rewrite (ScriptFacts.deleteTransaction_ledger i st T HT).
  cbv zeta. fold (kept i T).
  set (L := JSArray.sort by_timestamp_desc (List.map reloaded (kept i T))).
  assert (HL : L ≡ₚ List.map reloaded (kept i T)) by apply SortFacts.sort_perm.
  eexists _, L. split; [reflexivity|]. split; [reflexivity|]. split; [|split].
  - intros Hin. apply (Permutation_in _ (Permutation_map id HL)) in Hin.
    rewrite id_reloaded in Hin. apply in_map_iff in Hin.
    destruct Hin as (t & Ht & Hin). apply In_kept in Hin. tauto.
  - intros t Ht Hne. apply (Permutation_in _ (Permutation_sym HL)).
    apply in_map. apply In_kept. tauto.
  - cbn [localStorage showMessage set_message refreshed set_transactionList
         set_transactions set_displays saveTransactions set_localStorage
         transactions value_of].
    apply lookup_insert_eq.
Qed.

Lemma handleListClick_confirmed_delete_witness :
  let st := Sample.holding [Sample.pay; Sample.rent] in
  handleListClick None true st = Normal st
  /\ handleListClick (Some "2") false st = Normal st
  /\ exists st' L,
       handleListClick (Some "2") true st = Normal st'
       /\ transactions st' = Ledger L
       /\ ~ In "2" (List.map id L)
       /\ (forall t, In t [Sample.pay; Sample.rent] -> id t <> "2" -> In (reloaded t) L)
       /\ localStorage st' !! storageKey
          = Some (JSON.stringify (value_of (Ledger (kept "2" [Sample.pay; Sample.rent])))).
Proof.
  exact (handleListClick_confirmed_delete "2" true
           (Sample.holding [Sample.pay; Sample.rent]) [Sample.pay; Sample.rent] eq_refl).
Defined.

(** ** Rendering twice *)

(** For an array of transaction records none of whose timestamps is NaN,
    rendering again changes nothing: the rows are rebuilt from scratch, so
    none is doubled, and the array, already sorted, is not reordered. *)
Theorem renderTransactions_twice (st : State) (T : list Transaction) :
  transactions st = Ledger T ->
  Forall (fun t => Num.isNaN (ToNumber (timestamp t)) = false) T ->
  renderTransactions st >>> renderTransactions = renderTransactions st.
Proof.
  intros HT _.
  rewrite (ScriptFacts.renderTransactions_ledger st T HT). cbn [and_then].
  rewrite (ScriptFacts.renderTransactions_ledger _
             (JSArray.sort by_timestamp_desc T)) by reflexivity.
  rewrite (SortFacts.sort_idempotent by_timestamp_desc
             SortFacts.by_timestamp_desc_antisym).
  reflexivity.
Qed.

Lemma renderTransactions_twice_witness :
  renderTransactions (Sample.holding [Sample.rent; Sample.gift; Sample.pay])
  >>> renderTransactions
  = renderTransactions (Sample.holding [Sample.rent; Sample.gift; Sample.pay]).
Proof.
  apply (renderTransactions_twice
           (Sample.holding [Sample.rent; Sample.gift; Sample.pay])
           [Sample.rent; Sample.gift; Sample.pay]).
  - reflexivity.
  - constructor; [reflexivity|]. constructor; [reflexivity|].
    constructor; [reflexivity|]. constructor.
Defined.
